(** * EPG aggregation script ([epg_script.py]): model and verified properties

    The script loads an allow-list of channel identifiers, fetches a list of
    XMLTV documents, keeps the [channel] and [programme] elements whose
    identifier is allow-listed, rewrites two special programme titles and
    writes the merged [tv] document twice (plain and gzip).

    Conventions of the model.
    - A Python [str] is a [string] whose characters are the code points
      0..255; [None] is the [None] of [option].
    - [bytes] is [list byte].
    - The network ([requests.get]), the gzip codec and the XML parser and
      serializer are library code: they are variables of the sections below.
    - [print] calls only log and are left out. *)

From Stdlib Require Import Strings.Ascii Strings.String Strings.Byte.
From stdpp Require Import gmap strings list.

Local Open Scope string_scope.

(** ** Python strings *)

Module PyStr.

(** [str.isspace] on one character, for the code points below 256. *)
Definition isspace (c : ascii) : bool :=
  let n := N_of_ascii c in
  ((9 <=? n) && (n <=? 13) || (28 <=? n) && (n <=? 32)
   || (n =? 133) || (n =? 160))%N.

Fixpoint lstrip (s : string) : string :=
  match s with
  | EmptyString => EmptyString
  | String c s' => if isspace c then lstrip s' else s
  end.

Fixpoint rstrip (s : string) : string :=
  match s with
  | EmptyString => EmptyString
  | String c s' =>
      match rstrip s' with
      | EmptyString => if isspace c then EmptyString else String c EmptyString
      | r => String c r
      end
  end.

(** [s.strip()] *)
Definition strip (s : string) : string := rstrip (lstrip s).

(** [s.endswith(suffix)] *)
Definition endswith (s suffix : string) : bool :=
  let n := String.length s in
  let m := String.length suffix in
  (m <=? n)%nat && String.eqb (String.substring (n - m) m s) suffix.

(** Every character of [s] is white space. *)
Fixpoint all_space (s : string) : bool :=
  match s with
  | EmptyString => true
  | String c s' => isspace c && all_space s'
  end.

Definition first_char (s : string) : option ascii :=
  match s with EmptyString => None | String c _ => Some c end.

Fixpoint last_char (s : string) : option ascii :=
  match s with
  | EmptyString => None
  | String c EmptyString => Some c
  | String _ s' => last_char s'
  end.

(** [s] neither starts nor ends with white space. *)
Definition trimmed (s : string) : Prop :=
  (forall c, first_char s = Some c -> isspace c = false) /\
  (forall c, last_char s = Some c -> isspace c = false).

End PyStr.

(** ** Reading the allow-list file *)

Module TextFile.

Definition LF : ascii := "010"%char.
Definition CR : ascii := "013"%char.

(** Text mode with the default [newline=None]: on input ["\r\n"] and a lone
    ["\r"] become ["\n"].  [after_cr] says that the last character read was
    a ["\r"]. *)
Fixpoint universal_newlines (after_cr : bool) (s : string) : string :=
  match s with
  | EmptyString => EmptyString
  | String c s' =>
      if Ascii.eqb c CR then String LF (universal_newlines true s')
      else if Ascii.eqb c LF then
        if after_cr then universal_newlines false s'
        else String LF (universal_newlines false s')
      else String c (universal_newlines false s')
  end.

(** The lines of a translated text, each with its ["\n"] when it has one. *)
Fixpoint split_lines (s : string) : list string :=
  match s with
  | EmptyString => []
  | String c s' =>
      if Ascii.eqb c LF then String c EmptyString :: split_lines s'
      else match split_lines s' with
           | [] => [String c EmptyString]
           | l :: ls => String c l :: ls
           end
  end.

(** [for line in file]: the lines the file object yields. *)
Definition lines (content : string) : list string :=
  split_lines (universal_newlines false content).

End TextFile.

(** ** The allow-list *)

(** [set(line.strip() for line in file)]: the set is built by adding the
    stripped lines one after the other.  Its elements are Python values, a
    [str] or [None], since that is what [Element.get] hands to the
    membership test. *)
Definition valid_tvg_ids (content : string) : gset (option string) :=
  foldl (fun acc line => {[ Some (PyStr.strip line) ]} ∪ acc) ∅
        (TextFile.lines content).

(** [tvg_id in valid_tvg_ids] *)
Definition py_in (tvg_id : option string) (ids : gset (option string)) : bool :=
  bool_decide (tvg_id ∈ ids).

(** The allow-list as the specification words it: the set of the lines, each
    trimmed of surrounding white space. *)
Definition trimmed_lines (content : string) : gset (option string) :=
  list_to_set ((fun line => Some (PyStr.strip line)) <$> TextFile.lines content).

(** ** Exceptions and results *)

(** The exception classes the script meets.  All of them derive from
    [Exception]; [HTTPError] derives from [requests.RequestException]. *)
Inductive exn_class : Type :=
  | RequestException
  | HTTPError
  | TypeError
  | OtherException (name : string).

Record exn : Type := mkExn { exn_cls : exn_class; exn_detail : string }.

(** [isinstance(e, requests.RequestException)] *)
Definition isinstance_RequestException (e : exn) : bool :=
  match exn_cls e with
  | RequestException | HTTPError => true
  | TypeError | OtherException _ => false
  end.

(** [isinstance(e, Exception)] *)
Definition isinstance_Exception (e : exn) : bool :=
  match exn_cls e with
  | RequestException | HTTPError | TypeError | OtherException _ => true
  end.

Inductive result (A : Type) : Type :=
  | Ok (a : A)
  | Raise (e : exn).
Arguments Ok {A} a.
Arguments Raise {A} e.

Definition rbind {A B} (r : result A) (k : A -> result B) : result B :=
  match r with
  | Ok a => k a
  | Raise e => Raise e
  end.

Declare Scope result_scope.
Delimit Scope result_scope with result.
Notation "x <- r ;; k" := (rbind r (fun x => k))
  (at level 100, r at next level, right associativity) : result_scope.

(** ** ElementTree elements *)

#[warnings="-register-all"]
Inductive Element : Type := mkElement {
  tag : string;
  attrib : gmap string string;
  text : option string;
  tail : option string;
  children : list Element
}.

Module ET.

(** [elem.get(key)] is [elem.attrib.get(key, None)]. *)
Definition get (elem : Element) (key : string) : option string :=
  attrib elem !! key.

(** [elem.findall(name)] for a plain tag name: the direct children with that
    tag, in document order. *)
Definition findall (elem : Element) (name : string) : list Element :=
  List.filter (fun e => String.eqb (tag e) name) (children elem).

(** [elem.find(name)]: the first such child, or [None]. *)
Definition find (elem : Element) (name : string) : option Element :=
  List.find (fun e => String.eqb (tag e) name) (children elem).

(** Truth value of an element, as in [if elem:].  An [ElementTree] element
    has the truth value of its length: without child elements it is false,
    whatever its text and attributes. *)
Definition truth (elem : Element) : bool :=
  match children elem with
  | [] => false
  | _ :: _ => true
  end.

Definition set_text (elem : Element) (t : option string) : Element :=
  mkElement (tag elem) (attrib elem) t (tail elem) (children elem).

(** Replace the first element of [l] that satisfies [p] by its image. *)
Fixpoint update_first (p : Element -> bool) (f : Element -> Element)
    (l : list Element) : list Element :=
  match l with
  | [] => []
  | e :: l' => if p e then f e :: l' else e :: update_first p f l'
  end.

(** [elem.find(name).text = t], for an element that has such a child: the
    assignment changes that child in place. *)
Definition set_child_text (elem : Element) (name : string) (t : option string)
    : Element :=
  mkElement (tag elem) (attrib elem) (text elem) (tail elem)
    (update_first (fun e => String.eqb (tag e) name)
                  (fun e => set_text e t) (children elem)).

(** [ET.Element(name)] *)
Definition new (name : string) : Element := mkElement name ∅ None None [].

End ET.

(** [a + b] on values that are a [str] or [None]: concatenation of two
    strings, [TypeError] otherwise.  The detail strings abbreviate the
    messages of the interpreter (which quotes the type name); only the
    class of the exception matters below. *)
Definition py_add (a b : option string) : result (option string) :=
  match a, b with
  | Some a, Some b => Ok (Some (a ++ b))
  | Some _, None =>
      Raise (mkExn TypeError "can only concatenate str (not NoneType) to str")
  | None, _ =>
      Raise (mkExn TypeError "unsupported operand type(s) for +")
  end.

(** [a == s] for a string literal [s]. *)
Definition py_eq (a : option string) (s : string) : bool :=
  match a with
  | Some a => String.eqb a s
  | None => false
  end.

(** ** The output document as state *)

(** A computation that may append to the output root and may raise: it maps
    the root before to the root after and a result.  The root is kept when
    an exception is raised, so that what was appended up to then stays
    visible. *)
Definition M (A : Type) : Type := Element -> Element * result A.

Definition mret {A} (a : A) : M A := fun root => (root, Ok a).

Definition mbind {A B} (m : M A) (k : A -> M B) : M B :=
  fun root =>
    match m root with
    | (root', Ok a) => k a root'
    | (root', Raise e) => (root', Raise e)
    end.

Definition lift {A} (r : result A) : M A := fun root => (root, r).

Declare Scope M_scope.
Delimit Scope M_scope with M.
Notation "x <- m ;; k" := (mbind m (fun x => k))
  (at level 100, m at next level, right associativity) : M_scope.
Notation "m ;; k" := (mbind m (fun _ => k))
  (at level 100, right associativity) : M_scope.

(** [root.append(elem)] *)
Definition root_append (elem : Element) : M unit :=
  fun root =>
    (mkElement (tag root) (attrib root) (text root) (tail root)
               (children root ++ [elem]), Ok tt).

(** [for x in xs: body(x)] *)
Fixpoint for_each {A} (xs : list A) (body : A -> M unit) : M unit :=
  match xs with
  | [] => mret tt
  | x :: xs' => (body x ;; for_each xs' body)%M
  end.

(** ** Fetching and filtering *)

Record Response : Type := mkResponse {
  status_code : Z;
  content : list byte
}.

(** [response.raise_for_status()]: [HTTPError] for a 4xx or 5xx status. *)
Definition raise_for_status (response : Response) : result unit :=
  if (400 <=? status_code response)%Z && (status_code response <? 600)%Z
  then Raise (mkExn HTTPError "bad status")
  else Ok tt.

Section Engine.

(** [requests.get(url)] as the [k]-th request of the run: a response, or an
    exception. *)
Variable requests_get : nat -> string -> result Response.
(** [gzip.decompress(data)] *)
Variable gzip_decompress : list byte -> result (list byte).
(** [ET.fromstring(data)] *)
Variable ET_fromstring : list byte -> result Element.

(** [fetch_and_extract_xml(url)]; [Ok None] is [return None]. *)
Definition fetch_and_extract_xml (k : nat) (url : string)
    : result (option Element) :=
  match (response <- requests_get k url ;;
         _ <- raise_for_status response ;;
         Ok response)%result with
  | Raise e =>
      if isinstance_RequestException e then Ok None else Raise e
  | Ok response =>
      if PyStr.endswith url ".gz" then
        match (decompressed_data <- gzip_decompress (content response) ;;
               parsed <- ET_fromstring decompressed_data ;;
               Ok (Some parsed))%result with
        | Raise e => if isinstance_Exception e then Ok None else Raise e
        | Ok r => Ok r
        end
      else
        match (parsed <- ET_fromstring (content response) ;;
               Ok (Some parsed))%result with
        | Raise e => if isinstance_Exception e then Ok None else Raise e
        | Ok r => Ok r
        end
  end.

Variable valid_ids : gset (option string).

(** Body of the loop over [epg_data.findall('channel')]. *)
Definition process_channel (channel : Element) : M unit :=
  let tvg_id := ET.get channel "id" in
  if py_in tvg_id valid_ids then root_append channel else mret tt.

(** Body of the loop over [epg_data.findall('programme')]. *)
Definition process_programme (programme : Element) : M unit :=
  let tvg_id := ET.get programme "channel" in
  if py_in tvg_id valid_ids then
    let title := ET.find programme "title" in
    match title with
    | Some _ =>
        let title_text :=
          match title with
          | Some t => text t
          | None => Some "No title"
          end in
        (programme' <-
           (if py_eq title_text "NHL Hockey"
               || py_eq title_text "Live: NFL Football"
            then
              let subtitle := ET.find programme "sub-title" in
              let subtitle_text :=
                match subtitle with
                | Some st =>
                    if ET.truth st then text st else Some "No subtitle"
                | None => Some "No subtitle"
                end in
              new_text <- lift (t <- py_add title_text (Some " ") ;;
                                py_add t subtitle_text)%result ;;
              mret (ET.set_child_text programme "title" new_text)
            else mret programme) ;;
         root_append programme')%M
    | None => mret tt
    end
  else mret tt.

(** What is done with one parsed document. *)
Definition process_document (epg_data : Element) : M unit :=
  (for_each (ET.findall epg_data "channel") process_channel ;;
   for_each (ET.findall epg_data "programme") process_programme)%M.

(** [for url in urls: ...]; [k] counts the requests made so far. *)
Fixpoint for_urls (k : nat) (urls : list string) : M unit :=
  match urls with
  | [] => mret tt
  | url :: rest =>
      (epg_data <- lift (fetch_and_extract_xml k url) ;;
       match epg_data with
       | None => mret tt
       | Some d => process_document d
       end ;;
       for_urls (S k) rest)%M
  end.

End Engine.

(** ** Writing the two artifacts *)

Module Output.

(** [str.encode('utf-8')] on one code point below 256. *)
Definition utf8_char (c : ascii) : list byte :=
  let n := N_of_ascii c in
  if (n <? 128)%N then [byte_of_ascii c]
  else [byte_of_ascii (ascii_of_N (192 + n / 64));
        byte_of_ascii (ascii_of_N (128 + n mod 64))].

Fixpoint utf8 (s : string) : list byte :=
  match s with
  | EmptyString => []
  | String c s' => utf8_char c ++ utf8 s'
  end.

(** What a text layer writes for [s] when every ["\n"] is replaced by
    [linesep]. *)
Fixpoint translate_newlines (linesep : string) (s : string) : string :=
  match s with
  | EmptyString => EmptyString
  | String c s' =>
      if Ascii.eqb c TextFile.LF then linesep ++ translate_newlines linesep s'
      else String c (translate_newlines linesep s')
  end.

(** The number of ["\n"] in [s]. *)
Fixpoint newlines (s : string) : nat :=
  match s with
  | EmptyString => 0
  | String c s' => (if Ascii.eqb c TextFile.LF then 1 else 0) + newlines s'
  end.

(** [os.linesep] on POSIX systems and on Windows. *)
Definition posix_linesep : string := String TextFile.LF EmptyString.
Definition windows_linesep : string :=
  String TextFile.CR (String TextFile.LF EmptyString).

Definition SAVE_AS_GZ : bool := true.

Record Artifacts : Type := mkArtifacts {
  OUTPUT_FILE : list byte;
  OUTPUT_FILE_GZ : option (list byte)
}.

Section Write.

(** [os.linesep] of the platform. *)
Variable os_linesep : string.
(** The text [ElementTree] writes for the root element after the XML
    declaration. *)
Variable serialize_xml : Element -> string.
(** The content of a file written through [gzip.open(path, 'wb')]. *)
Variable gzip_compress : list byte -> list byte.

(** The text [tree.write(..., encoding='utf-8', xml_declaration=True)]
    hands to its writer. *)
Definition tree_text (root : Element) : string :=
  "<?xml version='1.0' encoding='utf-8'?>" ++ String TextFile.LF EmptyString
    ++ serialize_xml root.

(** [tree.write(OUTPUT_FILE, ...)] with a path: [ElementTree] opens the
    path itself, in text mode with the default newline handling, so the
    text layer turns each ["\n"] into [os.linesep]. *)
Definition write_to_path (root : Element) : list byte :=
  utf8 (translate_newlines os_linesep (tree_text root)).

(** [tree.write(f, ...)] with the binary file object [f] of [gzip.open]:
    [ElementTree] wraps [f] in a text layer with [newline="\n"], which
    writes ["\n"] as it is. *)
Definition write_to_gzip (root : Element) : list byte :=
  gzip_compress (utf8 (tree_text root)).

(** Lines 87 to 94: the two writes of the same tree. *)
Definition write_artifacts (root : Element) : Artifacts :=
  mkArtifacts (write_to_path root)
              (if SAVE_AS_GZ then Some (write_to_gzip root) else None).

End Write.

End Output.

(** ** The whole run *)

Section Run.

Variable requests_get : nat -> string -> result Response.
Variable gzip_decompress : list byte -> result (list byte).
Variable ET_fromstring : list byte -> result Element.
Variable os_linesep : string.
Variable serialize_xml : Element -> string.
Variable gzip_compress : list byte -> list byte.

(** Lines 56 to 85: the allow-list is read from the text of the
    identifier file, the root is created empty and the sources are
    processed.  The result is the root at the end of the loop, or at the
    point where an exception stopped it. *)
Definition build_root (ids_file : string) (urls : list string)
    : Element * result unit :=
  let valid_ids := valid_tvg_ids ids_file in
  let root := ET.new "tv" in
  for_urls requests_get gzip_decompress ET_fromstring valid_ids 0 urls root.

(** [filter_and_build_epg(urls)]: the artifacts written, when the loop
    ends without an exception. *)
Definition filter_and_build_epg (ids_file : string) (urls : list string)
    : result Output.Artifacts :=
  match build_root ids_file urls with
  | (root, Ok _) =>
      Ok (Output.write_artifacts os_linesep serialize_xml gzip_compress root)
  | (_, Raise e) => Raise e
  end.

End Run.

(** ** Vocabulary for the statements *)

(** The root with [added] appended to its children. *)
Definition extend (root : Element) (added : list Element) : Element :=
  mkElement (tag root) (attrib root) (text root) (tail root)
            (children root ++ added).

Definition allowed_channel (valid_ids : gset (option string))
    (channel : Element) : bool :=
  py_in (ET.get channel "id") valid_ids.

Definition allowed_programme (valid_ids : gset (option string))
    (programme : Element) : bool :=
  py_in (ET.get programme "channel") valid_ids.

(** [p'] is [p], or [p] with another text in its first title child. *)
Definition retitled (p p' : Element) : Prop :=
  p' = p \/ exists t, p' = ET.set_child_text p "title" t.

(** An element of the output carries an allow-listed identifier: [id] for a
    channel, [channel] for a programme. *)
Definition identified (valid_ids : gset (option string)) (e : Element) : Prop :=
  (tag e = "channel" /\ ET.get e "id" ∈ valid_ids)
  \/ (tag e = "programme" /\ ET.get e "channel" ∈ valid_ids).

(** [out] is what one parsed document adds to the output: its allow-listed
    channel children in document order, then the images [ps] of some of its
    allow-listed programme children [kept], in document order too. *)
Definition contribution (valid_ids : gset (option string)) (d : Element)
    (out : list Element) : Prop :=
  exists kept ps,
    out = (List.filter (allowed_channel valid_ids) (ET.findall d "channel")
           ++ ps)%list
    /\ sublist kept (ET.findall d "programme")
    /\ Forall2 retitled kept ps
    /\ Forall (fun p => allowed_programme valid_ids p = true) kept.

(** [x] comes before [y] in [l]. *)
Definition precedes (x y : Element) (l : list Element) : Prop :=
  exists l1 l2 l3, l = (l1 ++ x :: l2 ++ y :: l3)%list.

Section Sources.

Variable requests_get : nat -> string -> result Response.
Variable gzip_decompress : list byte -> result (list byte).
Variable ET_fromstring : list byte -> result Element.

Abbreviation fetch := (fetch_and_extract_xml requests_get gzip_decompress
                                         ET_fromstring).

(** The documents of the sources that are fetched and parsed, in the order
    of the list; [k] is the number of the first request.  A source for which
    the fetch returns [None] or raises gives no document. *)
Fixpoint fetched (k : nat) (urls : list string) : list Element :=
  match urls with
  | [] => []
  | url :: rest =>
      match fetch k url with
      | Ok (Some d) => d :: fetched (S k) rest
      | _ => fetched (S k) rest
      end
  end.

(** The [k]-th request, for [url], fails in one of the ways the fetch
    catches: the transport raises a [RequestException], the status is 4xx
    or 5xx, the body of a [.gz] source does not decompress, or the XML does
    not parse.  An exception of the transport outside [RequestException] is
    not among them. *)
Definition caught_failure (k : nat) (url : string) : Prop :=
  (exists e, requests_get k url = Raise e
             /\ isinstance_RequestException e = true)
  \/ (exists response, requests_get k url = Ok response /\
        ((400 <= status_code response < 600)%Z
         \/ (PyStr.endswith url ".gz" = true /\
             exists e, gzip_decompress (content response) = Raise e)
         \/ (PyStr.endswith url ".gz" = true /\
             exists data e, gzip_decompress (content response) = Ok data
                            /\ ET_fromstring data = Raise e)
         \/ (PyStr.endswith url ".gz" = false /\
             exists e, ET_fromstring (content response) = Raise e))).

End Sources.

(** ** A small world to run the model on *)

Module Demo.

Definition elem (name : string) (attrs : list (string * string))
    (txt : option string) (kids : list Element) : Element :=
  mkElement name (list_to_map attrs) txt None kids.

(** The identifier file: a padded line, a duplicate and a blank line. *)
Definition ids_file : string :=
  "ESPN" ++ String TextFile.LF ("  CNN  " ++ String TextFile.CR
    (String TextFile.LF ("ESPN" ++ String TextFile.LF
      (String TextFile.LF EmptyString)))).

(** The same identifiers in another order, without padding or duplicate. *)
Definition ids_file_reordered : string :=
  String TextFile.LF ("CNN" ++ String TextFile.LF "ESPN").

Definition espn : Element :=
  elem "channel" [("id", "ESPN")] None
       [elem "display-name" [] (Some "ESPN") []].
Definition fox : Element :=
  elem "channel" [("id", "FOX")] None [elem "display-name" [] (Some "Fox") []].
Definition anonymous_channel : Element :=
  elem "channel" [] None [elem "display-name" [] (Some "?") []].
Definition cnn : Element :=
  elem "channel" [("id", "CNN")] None [elem "display-name" [] (Some "CNN") []].

(** [<programme channel="ESPN"><title>NHL Hockey</title>
     <sub-title>Rangers vs Bruins</sub-title></programme>] *)
Definition hockey : Element :=
  elem "programme" [("channel", "ESPN"); ("start", "20240101")] None
       [elem "title" [] (Some "NHL Hockey") [];
        elem "sub-title" [] (Some "Rangers vs Bruins") []].

(** The same title with no sub-title node. *)
Definition hockey_alone : Element :=
  elem "programme" [("channel", "ESPN")] None
       [elem "title" [] (Some "NHL Hockey") []].

(** An allow-listed programme with a description and no title. *)
Definition untitled : Element :=
  elem "programme" [("channel", "ESPN")] None
       [elem "desc" [] (Some "To be announced") []].

Definition regular_show : Element :=
  elem "programme" [("channel", "CNN")] None
       [elem "title" [] (Some "Regular Show") [];
        elem "sub-title" [] (Some "Pilot") []].

Definition fox_news : Element :=
  elem "programme" [("channel", "FOX")] None
       [elem "title" [] (Some "News") []].

Definition anonymous_programme : Element :=
  elem "programme" [] None [elem "title" [] (Some "News") []].

(** [<programme channel="CNN"><title>Live: NFL Football</title>
     <sub-title><i>Jets at Bills</i></sub-title></programme>]: the sub-title
    has a child element and no text of its own. *)
Definition football : Element :=
  elem "programme" [("channel", "CNN")] None
       [elem "title" [] (Some "Live: NFL Football") [];
        elem "sub-title" [] None [elem "i" [] (Some "Jets at Bills") []]].

Definition doc_a : Element :=
  elem "tv" [] None
       [espn; hockey; fox; anonymous_channel; untitled; fox_news;
        anonymous_programme].
Definition doc_b : Element :=
  elem "tv" [] None [regular_show; cnn; hockey_alone].
Definition doc_c : Element :=
  elem "tv" [] None [cnn; football; regular_show].

Definition url_a : string := "http://a.example/epg.xml".
Definition url_b : string := "http://b.example/epg.xml.gz".
Definition url_c : string := "http://c.example/epg.xml".
Definition url_down : string := "http://down.example/epg.xml".
Definition url_missing : string := "http://missing.example/epg.xml.gz".
Definition url_garbage : string := "http://garbage.example/epg.xml".
Definition url_not_gzip : string := "http://plain.example/epg.xml.gz".

(** The network: each URL answers the same way at every request. *)
Definition requests_get (k : nat) (url : string) : result Response :=
  if String.eqb url url_a then Ok (mkResponse 200 [x61])
  else if String.eqb url url_b then Ok (mkResponse 200 [x1f; x62])
  else if String.eqb url url_c then Ok (mkResponse 200 [x63])
  else if String.eqb url url_missing then Ok (mkResponse 404 [])
  else if String.eqb url url_garbage then Ok (mkResponse 200 [x00])
  else if String.eqb url url_not_gzip then Ok (mkResponse 200 [x61])
  else Raise (mkExn RequestException "connection refused").

(** A toy codec: a compressed stream is its content after one magic byte. *)
Definition gzip_compress (data : list byte) : list byte := x1f :: data.
Definition gzip_decompress (data : list byte) : result (list byte) :=
  match data with
  | x1f :: rest => Ok rest
  | _ => Raise (mkExn (OtherException "BadGzipFile") "not a gzipped file")
  end.

(** A toy parser: one byte names the document. *)
Definition ET_fromstring (data : list byte) : result Element :=
  match data with
  | [x61] => Ok doc_a
  | [x62] => Ok doc_b
  | [x63] => Ok doc_c
  | _ => Raise (mkExn (OtherException "ParseError") "syntax error")
  end.

(** A toy serializer: the tag names of the root and of its children. *)
Definition serialize_xml (root : Element) : string :=
  "<" ++ tag root ++ ">"
    ++ String.concat "" (List.map (fun e => "<" ++ tag e ++ "/>") (children root))
    ++ "</" ++ tag root ++ ">" ++ String TextFile.LF EmptyString.

Definition build (urls : list string) : Element * result unit :=
  build_root requests_get gzip_decompress ET_fromstring ids_file urls.

End Demo.

(** ** More vocabulary *)

(** [c] occurs in [s]. *)
Fixpoint contains_char (c : ascii) (s : string) : bool :=
  match s with
  | EmptyString => false
  | String a s' => Ascii.eqb a c || contains_char c s'
  end.

(** The lines joined again, with nothing between them. *)
Definition join_lines (ls : list string) : string :=
  foldr String.append EmptyString ls.

Definition is_channel (e : Element) : bool := String.eqb (tag e) "channel".
Definition is_programme (e : Element) : bool := String.eqb (tag e) "programme".

(** A programme that passes both tests of the loop: its [channel] attribute
    is allow-listed and it has a title child. *)
Definition keepable (valid_ids : gset (option string)) (p : Element) : bool :=
  allowed_programme valid_ids p
  && match ET.find p "title" with Some _ => true | None => false end.

(** The channels and the programmes of a document that pass the tests. *)
Definition kept_channels (valid_ids : gset (option string)) (d : Element)
    : list Element :=
  List.filter (allowed_channel valid_ids) (ET.findall d "channel").

Definition kept_programmes (valid_ids : gset (option string)) (d : Element)
    : list Element :=
  List.filter (keepable valid_ids) (ET.findall d "programme").

(** What a document adds when nothing raises: its allow-listed channels,
    then one image of each of its allow-listed programmes with a title. *)
Definition whole_contribution (valid_ids : gset (option string))
    (d : Element) (out : list Element) : Prop :=
  exists ps, out = (kept_channels valid_ids d ++ ps)%list
             /\ Forall2 retitled (kept_programmes valid_ids d) ps.

(** One of the two titles that are rewritten. *)
Definition special_title (t : string) : Prop :=
  t = "NHL Hockey" \/ t = "Live: NFL Football".

Module DemoMore.

(** [<programme channel="CNN"><title>Live: NFL Football</title>
     <title lang="fr">NHL Hockey</title>
     <sub-title>Jets at Bills<i>live</i></sub-title></programme>]: a second
    title, and a sub-title with a text and a child element. *)
Definition football_live : Element :=
  Demo.elem "programme" [("channel", "CNN"); ("stop", "20240102")] None
    [Demo.elem "desc" [] (Some "Week 1") [];
     Demo.elem "title" [] (Some "Live: NFL Football") [];
     Demo.elem "title" [("lang", "fr")] (Some "NHL Hockey") [];
     Demo.elem "sub-title" [] (Some "Jets at Bills")
               [Demo.elem "i" [] (Some "live") []]].

(** A channel whose identifier is padded with a blank. *)
Definition padded_channel : Element :=
  Demo.elem "channel" [("id", "ESPN ")] None [].

(** A channel whose identifier is the empty string. *)
Definition nameless_channel : Element :=
  Demo.elem "channel" [("id", "")] None [].

Definition doc_d : Element :=
  Demo.elem "tv" [] None [Demo.espn; Demo.football; Demo.regular_show].

(** A network that answers the first request with the first demo
    document and fails, with an exception that is no [RequestException],
    at every later one. *)
Definition flaky_get (k : nat) (url : string) : result Response :=
  match k with
  | 0 => Ok (mkResponse 200 [x61])
  | _ => Raise (mkExn (OtherException "ValueError") "bad address")
  end.

End DemoMore.

Module DemoLeak.

(** A source whose host has an empty label. *)
Definition url_bad_host : string := "http://a..b/epg.xml".

(** What the transport raises for it: an exception of the connection
    library, which is no [RequestException]. *)
Definition leak : exn :=
  mkExn (OtherException "LocationParseError") "label empty or too long".

(** The demo network, except that the request for the bad host raises. *)
Definition requests_get (k : nat) (url : string) : result Response :=
  if String.eqb url url_bad_host then Raise leak
  else Demo.requests_get k url.

Definition build (urls : list string) : Element * result unit :=
  build_root requests_get Demo.gzip_decompress Demo.ET_fromstring
             Demo.ids_file urls.

End DemoLeak.

(** * Properties *)

Local Open Scope list_scope.

(** ** Stripping *)

Module PyStrFacts.
Import PyStr.

Lemma append_cons (c : ascii) (a b : string) :
  String.append (String c a) b = String c (String.append a b).
Proof. reflexivity. Qed.

Lemma append_empty (b : string) : String.append EmptyString b = b.
Proof. reflexivity. Qed.

Lemma lstrip_split (s : string) :
  exists l, s = String.append l (lstrip s) /\ all_space l = true.
Proof.
  induction s as [|c s IH]; simpl.
  - exists EmptyString. split; reflexivity.
  - destruct (isspace c) eqn:Hc.
    + destruct IH as (l & Hl & Hsp). exists (String c l).
      rewrite append_cons. simpl. rewrite Hc.
      split; [congruence | assumption].
    + exists EmptyString. split; reflexivity.
Qed.

Lemma lstrip_first (s : string) (c : ascii) :
  first_char (lstrip s) = Some c -> isspace c = false.
Proof.
  induction s as [|a s IH]; simpl; [discriminate|].
  destruct (isspace a) eqn:Ha; [exact IH|].
  simpl. intros [= <-]. exact Ha.
Qed.

Lemma rstrip_split (s : string) :
  exists r, s = String.append (rstrip s) r /\ all_space r = true.
Proof.
  induction s as [|c s IH]; simpl.
  - exists EmptyString. split; reflexivity.
  - destruct IH as (r & Hr & Hsp).
    destruct (rstrip s) as [|a t] eqn:Hrs.
    + rewrite append_empty in Hr. subst r. destruct (isspace c) eqn:Hc.
      * exists (String c s). simpl. rewrite Hc. split; [reflexivity|assumption].
      * exists s. split; [reflexivity|assumption].
    + exists r. rewrite append_cons. split; [f_equal; exact Hr | assumption].
Qed.

Lemma rstrip_last (s : string) (c : ascii) :
  last_char (rstrip s) = Some c -> isspace c = false.
Proof.
  induction s as [|a s IH]; simpl; [discriminate|].
  destruct (rstrip s) as [|b t] eqn:Hrs.
  - destruct (isspace a) eqn:Ha; simpl; [discriminate|].
    intros [= <-]. exact Ha.
  - exact IH.
Qed.

Lemma rstrip_first (s : string) (c : ascii) :
  (forall a, first_char s = Some a -> isspace a = false) ->
  first_char (rstrip s) = Some c -> isspace c = false.
Proof.
  destruct s as [|a s]; simpl; [discriminate|].
  intros Hfirst. destruct (rstrip s) as [|b t].
  - destruct (isspace a) eqn:Ha; simpl; [discriminate|].
    intros [= <-]. exact Ha.
  - simpl. intros [= <-]. apply Hfirst. reflexivity.
Qed.

(** [strip] removes a run of white space on each side and leaves a string
    that neither starts nor ends with white space. *)
Lemma strip_spec (s : string) :
  exists l r,
    s = String.append l (String.append (strip s) r) /\
    all_space l = true /\ all_space r = true /\ trimmed (strip s).
Proof.
  destruct (lstrip_split s) as (l & Hl & Hlsp).
  destruct (rstrip_split (lstrip s)) as (r & Hr & Hrsp).
  exists l, r. unfold strip. repeat split; try assumption.
  - rewrite <- Hr. exact Hl.
  - intros c. apply rstrip_first. intros a. apply lstrip_first.
  - intros c. apply rstrip_last.
Qed.

End PyStrFacts.

(** ** The allow-list *)

Lemma elem_of_foldl_add (f : string -> option string) (ls : list string)
    (acc : gset (option string)) (x : option string) :
  x ∈ foldl (fun acc line => {[ f line ]} ∪ acc) acc ls
  <-> x ∈ acc \/ exists line, line ∈ ls /\ x = f line.
Proof.
  revert acc. induction ls as [|l ls IH]; intros acc; simpl.
  - split; [auto|]. intros [H|(line & Hin & _)]; [exact H|]. inversion Hin.
  - rewrite IH. rewrite elem_of_union, elem_of_singleton. split.
    + intros [[->|H]|(line & Hin & ->)].
      * right. exists l. split; [left|reflexivity].
      * left. exact H.
      * right. exists line. split; [right; exact Hin|reflexivity].
    + intros [H|(line & Hin & ->)]; [left; right; exact H|].
      apply elem_of_cons in Hin as [->|Hin].
      * left. left. reflexivity.
      * right. exists line. split; [exact Hin|reflexivity].
Qed.

Lemma elem_of_valid_tvg_ids (ids_file : string) (x : option string) :
  x ∈ valid_tvg_ids ids_file
  <-> exists line, line ∈ TextFile.lines ids_file /\ x = Some (PyStr.strip line).
Proof.
  unfold valid_tvg_ids.
  rewrite (elem_of_foldl_add (fun line => Some (PyStr.strip line))).
  split; [|auto]. intros [H|H]; [|exact H]. set_solver.
Qed.

(** [None] is never a member of the loaded allow-list. *)
Lemma None_not_valid (ids_file : string) : None ∉ valid_tvg_ids ids_file.
Proof.
  rewrite elem_of_valid_tvg_ids. intros (line & _ & H). discriminate.
Qed.

(** C7: the loaded allow-list is the set of the lines of the file, each
    trimmed of surrounding white space; lines that trim to the same string
    give one member, whatever their number and order; and an identifier is
    a member exactly when it is equal, character by character, to a trimmed
    line. *)
Theorem C7_allow_list_is_set_of_trimmed_lines (ids_file : string) :
  valid_tvg_ids ids_file = trimmed_lines ids_file
  /\ (forall id : option string,
        py_in id (valid_tvg_ids ids_file) = true
        <-> exists line, line ∈ TextFile.lines ids_file
                         /\ id = Some (PyStr.strip line))
  /\ (forall line, line ∈ TextFile.lines ids_file ->
        exists l r,
          line = String.append l (String.append (PyStr.strip line) r)
          /\ PyStr.all_space l = true /\ PyStr.all_space r = true
          /\ PyStr.trimmed (PyStr.strip line))
  /\ (forall other : string,
        (forall s, s ∈ PyStr.strip <$> TextFile.lines ids_file
                   <-> s ∈ PyStr.strip <$> TextFile.lines other) ->
        valid_tvg_ids other = valid_tvg_ids ids_file).
Proof.
  split; [|split; [|split]].
  - apply set_eq. intros x. rewrite elem_of_valid_tvg_ids.
    unfold trimmed_lines. rewrite elem_of_list_to_set, list_elem_of_fmap.
    split; intros (line & H1 & H2); exists line; auto.
  - intros id. unfold py_in. rewrite bool_decide_eq_true.
    apply elem_of_valid_tvg_ids.
  - intros line _. apply PyStrFacts.strip_spec.
  - intros other Hsame. apply set_eq. intros x.
    rewrite !elem_of_valid_tvg_ids. split.
    + intros (line & Hin & ->).
      assert (PyStr.strip line ∈ PyStr.strip <$> TextFile.lines other) as H
        by (apply list_elem_of_fmap; eauto).
      apply Hsame, list_elem_of_fmap in H as (line' & Heq & Hin').
      exists line'. split; [exact Hin'|congruence].
    + intros (line & Hin & ->).
      assert (PyStr.strip line ∈ PyStr.strip <$> TextFile.lines ids_file) as H
        by (apply list_elem_of_fmap; eauto).
      apply Hsame, list_elem_of_fmap in H as (line' & Heq & Hin').
      exists line'. split; [exact Hin'|congruence].
Qed.

(** On the demo file the padded line gives the member "CNN", and a file
    with the same identifiers in another order, unpadded and without the
    duplicate, gives the same allow-list. *)
Lemma C7_witness :
  (exists line, line ∈ TextFile.lines Demo.ids_file
                /\ Some "CNN" = Some (PyStr.strip line))
  /\ (exists l r,
        String.append "  CNN  " (String TextFile.LF EmptyString)
        = String.append l (String.append "CNN" r)
        /\ PyStr.all_space l = true /\ PyStr.all_space r = true
        /\ PyStr.trimmed "CNN")
  /\ valid_tvg_ids Demo.ids_file_reordered = valid_tvg_ids Demo.ids_file.
Proof.
  pose proof (C7_allow_list_is_set_of_trimmed_lines Demo.ids_file)
    as (_ & Hmem & Htrim & Hsame).
  split; [|split].
  - apply Hmem. vm_compute. reflexivity.
  - apply (Htrim (String.append "  CNN  " (String TextFile.LF EmptyString))).
    vm_compute. right. left.
  - apply Hsame.
    assert (PyStr.strip <$> TextFile.lines Demo.ids_file
            = ["ESPN"; "CNN"; "ESPN"; ""]) as -> by (vm_compute; reflexivity).
    assert (PyStr.strip <$> TextFile.lines Demo.ids_file_reordered
            = [""; "CNN"; "ESPN"]) as -> by (vm_compute; reflexivity).
    intros s. rewrite !elem_of_cons, !elem_of_nil. tauto.
Defined.

(** Membership compares the strings as they are: no change of case, no
    trimming of the identifier looked up; the blank line is a member. *)
Example membership_is_exact :
  py_in (Some "ESPN") (valid_tvg_ids Demo.ids_file) = true
  /\ py_in (Some "espn") (valid_tvg_ids Demo.ids_file) = false
  /\ py_in (Some " ESPN") (valid_tvg_ids Demo.ids_file) = false
  /\ py_in (Some "") (valid_tvg_ids Demo.ids_file) = true
  /\ py_in None (valid_tvg_ids Demo.ids_file) = false.
Proof. vm_compute. repeat split. Qed.

(** ** The output root *)

Lemma extend_nil (root : Element) : extend root [] = root.
Proof. destruct root. unfold extend. simpl. rewrite app_nil_r. reflexivity. Qed.

Lemma extend_extend (root : Element) (a b : list Element) :
  extend (extend root a) b = extend root (a ++ b).
Proof. unfold extend. simpl. rewrite app_assoc. reflexivity. Qed.

Lemma children_extend (root : Element) (a : list Element) :
  children (extend root a) = children root ++ a.
Proof. reflexivity. Qed.

Lemma root_append_extend (e root : Element) :
  root_append e root = (extend root [e], Ok tt).
Proof. reflexivity. Qed.

Lemma retitled_tag (p p' : Element) : retitled p p' -> tag p' = tag p.
Proof. intros [->|(t & ->)]; reflexivity. Qed.

Lemma retitled_attrib (p p' : Element) : retitled p p' -> attrib p' = attrib p.
Proof. intros [->|(t & ->)]; reflexivity. Qed.

Lemma findall_tag (d : Element) (name : string) (e : Element) :
  e ∈ ET.findall d name -> tag e = name.
Proof.
  unfold ET.findall. rewrite list_elem_of_In, filter_In. intros [_ H].
  apply String.eqb_eq. exact H.
Qed.

(** ** One element at a time *)

Section Steps.

Variable valid_ids : gset (option string).

Lemma process_channel_run (c root : Element) :
  process_channel valid_ids c root
  = (extend root (if allowed_channel valid_ids c then [c] else []), Ok tt).
Proof.
  unfold process_channel, allowed_channel.
  destruct (py_in (ET.get c "id") valid_ids).
  - apply root_append_extend.
  - rewrite extend_nil. reflexivity.
Qed.

Lemma for_each_channels (cs : list Element) (root : Element) :
  for_each cs (process_channel valid_ids) root
  = (extend root (List.filter (allowed_channel valid_ids) cs), Ok tt).
Proof.
  revert root. induction cs as [|c cs IH]; intros root; simpl.
  - rewrite extend_nil. reflexivity.
  - unfold mbind. rewrite process_channel_run, IH, extend_extend.
    destruct (allowed_channel valid_ids c); reflexivity.
Qed.

(** The three ways one programme can go: an exception with the root as it
    was, nothing appended, or one image of the programme appended. *)
Lemma process_programme_cases (p root : Element) :
  (exists e, process_programme valid_ids p root = (root, Raise e))
  \/ process_programme valid_ids p root = (root, Ok tt)
  \/ (exists p',
        process_programme valid_ids p root = (extend root [p'], Ok tt)
        /\ allowed_programme valid_ids p = true
        /\ is_Some (ET.find p "title")
        /\ retitled p p').
Proof.
  unfold process_programme, allowed_programme.
  destruct (py_in (ET.get p "channel") valid_ids) eqn:Hin;
    [|right; left; reflexivity].
  destruct (ET.find p "title") as [t|] eqn:Ht; [|right; left; reflexivity].
  cbv zeta.
  destruct (py_eq (text t) "NHL Hockey"
            || py_eq (text t) "Live: NFL Football").
  - unfold mbind at 1. unfold mbind, lift.
    match goal with
    | |- context [rbind ?a ?k] => destruct (rbind a k) as [nt|e]
    end.
    + right; right. exists (ET.set_child_text p "title" nt).
      split; [reflexivity|]. split; [reflexivity|].
      split; [eexists; reflexivity|]. right. eexists; reflexivity.
    + left. exists e. reflexivity.
  - right; right. exists p. split; [reflexivity|]. split; [reflexivity|].
    split; [eexists; reflexivity|]. left. reflexivity.
Qed.

Lemma for_each_programmes (ps : list Element) (root : Element) :
  exists kept out r,
    for_each ps (process_programme valid_ids) root = (extend root out, r)
    /\ sublist kept ps
    /\ Forall2 retitled kept out
    /\ Forall (fun p => allowed_programme valid_ids p = true) kept.
Proof.
  revert root. induction ps as [|p ps IH]; intros root.
  - exists [], [], (Ok tt). simpl. rewrite extend_nil.
    repeat split; constructor.
  - simpl. unfold mbind.
    destruct (process_programme_cases p root)
      as [(e & ->)|[->|(p' & -> & Hal & _ & Hre)]].
    + exists [], [], (Raise e). rewrite extend_nil.
      repeat split; try constructor. apply sublist_nil_l.
    + destruct (IH root) as (kept & out & r & -> & Hsub & Hre & Hal).
      exists kept, out, r. repeat split; try assumption.
      apply sublist_cons. exact Hsub.
    + destruct (IH (extend root [p'])) as (kept & out & r & -> & Hsub & Hre' & Hal').
      exists (p :: kept), (p' :: out), r. rewrite extend_extend.
      repeat split.
      * apply sublist_skip. exact Hsub.
      * constructor; assumption.
      * constructor; assumption.
Qed.

(** One document adds its allow-listed channels, then programme images;
    the channels are all there even when a programme raises. *)
Lemma process_document_run (d root : Element) :
  exists out r,
    process_document valid_ids d root = (extend root out, r)
    /\ contribution valid_ids d out.
Proof.
  unfold process_document, mbind. rewrite for_each_channels.
  destruct (for_each_programmes (ET.findall d "programme")
              (extend root (List.filter (allowed_channel valid_ids)
                                        (ET.findall d "channel"))))
    as (kept & ps & r & Hrun & Hsub & Hre & Hal).
  rewrite Hrun, extend_extend.
  eexists _, r. split; [reflexivity|].
  exists kept, ps. repeat split; assumption.
Qed.

(** Every element of a contribution carries an allow-listed identifier. *)
Lemma contribution_identified (d : Element) (out : list Element) :
  contribution valid_ids d out -> Forall (identified valid_ids) out.
Proof.
  intros (kept & ps & -> & Hsub & Hre & Hal).
  apply Forall_app. split.
  - apply Forall_forall. intros c Hc.
    apply list_elem_of_In, filter_In in Hc as [Hc Hok].
    left. split.
    + apply (findall_tag d). apply list_elem_of_In. exact Hc.
    + unfold allowed_channel, py_in in Hok.
      apply bool_decide_eq_true in Hok. exact Hok.
  - assert (Forall (fun p => tag p = "programme") kept) as Htag.
    { apply Forall_forall. intros p Hp. apply (findall_tag d).
      exact (sublist_subseteq _ _ Hsub p Hp). }
    clear Hsub. induction Hre as [|p p' kept ps Hpp' Hre IH]; [constructor|].
    inversion Hal; subst. inversion Htag; subst.
    constructor; [|apply IH; assumption].
    right. rewrite (retitled_tag _ _ Hpp').
    unfold ET.get. rewrite (retitled_attrib _ _ Hpp').
    split; [assumption|].
    match goal with H : allowed_programme _ _ = true |- _ =>
      unfold allowed_programme, py_in in H;
      apply bool_decide_eq_true in H; exact H end.
Qed.

End Steps.

(** ** The loop over the sources *)

Section Loop.

Variable requests_get : nat -> string -> result Response.
Variable gzip_decompress : list byte -> result (list byte).
Variable ET_fromstring : list byte -> result Element.
Variable valid_ids : gset (option string).

Abbreviation fetch :=
  (fetch_and_extract_xml requests_get gzip_decompress ET_fromstring).
Abbreviation loop :=
  (for_urls requests_get gzip_decompress ET_fromstring valid_ids).
Abbreviation docs_of := (fetched requests_get gzip_decompress ET_fromstring).

Lemma for_urls_cons (k : nat) (url : string) (rest : list string)
    (root : Element) :
  loop k (url :: rest) root
  = match fetch k url with
    | Raise e => (root, Raise e)
    | Ok None => loop (S k) rest root
    | Ok (Some d) =>
        match process_document valid_ids d root with
        | (root', Ok _) => loop (S k) rest root'
        | (root', Raise e) => (root', Raise e)
        end
    end.
Proof.
  simpl. unfold mbind at 1. unfold lift.
  destruct (fetch k url) as [[d|]|e]; reflexivity.
Qed.

Lemma for_urls_app (k : nat) (pre rest : list string) (root : Element) :
  loop k (pre ++ rest) root
  = (loop k pre ;; loop (k + length pre) rest)%M root.
Proof.
  revert k root. induction pre as [|url pre IH]; intros k root.
  - simpl. unfold mbind, mret. rewrite Nat.add_0_r. reflexivity.
  - rewrite <- app_comm_cons, !for_urls_cons.
    replace (k + length (url :: pre)) with (S k + length pre) by (simpl; lia).
    unfold mbind at 1. rewrite for_urls_cons.
    destruct (fetch k url) as [[d|]|e]; [| |reflexivity].
    + destruct (process_document valid_ids d root) as [root' [u|e]];
        [|reflexivity].
      rewrite IH. reflexivity.
    + rewrite IH. reflexivity.
Qed.

(** What the loop leaves in the root, whatever its outcome: the
    contributions of the first documents fetched, of all of them when it
    ends without an exception. *)
Lemma for_urls_run (k : nat) (urls : list string) (root : Element) :
  exists docs outs r,
    loop k urls root = (extend root (concat outs), r)
    /\ Forall2 (contribution valid_ids) docs outs
    /\ docs `prefix_of` docs_of k urls
    /\ (forall u, r = Ok u -> docs = docs_of k urls).
Proof.
  revert k root. induction urls as [|url rest IH]; intros k root.
  - exists [], [], (Ok tt). simpl. rewrite extend_nil.
    repeat split; [constructor|reflexivity].
  - rewrite for_urls_cons. simpl fetched.
    destruct (fetch k url) as [[d|]|e].
    + destruct (process_document_run valid_ids d root)
        as (out & r1 & -> & Hout).
      destruct r1 as [u|e].
      * destruct (IH (S k) (extend root out))
          as (docs & outs & r & -> & Hall & Hpre & Hok).
        exists (d :: docs), (out :: outs), r. rewrite extend_extend.
        repeat split.
        -- constructor; assumption.
        -- apply prefix_cons. exact Hpre.
        -- intros u' Hr. f_equal. exact (Hok u' Hr).
      * exists [d], [out], (Raise e). simpl. rewrite app_nil_r.
        repeat split.
        -- constructor; [assumption|constructor].
        -- apply prefix_cons, prefix_nil.
        -- discriminate.
    + apply IH.
    + exists [], [], (Raise e). simpl. rewrite extend_nil.
      repeat split; [constructor|apply prefix_nil|discriminate].
Qed.

Lemma for_urls_identified (k : nat) (urls : list string) (root : Element) :
  Forall (identified valid_ids) (children root) ->
  Forall (identified valid_ids) (children (loop k urls root).1).
Proof.
  intros Hroot.
  destruct (for_urls_run k urls root) as (docs & outs & r & -> & Hall & _).
  simpl. apply Forall_app. split; [exact Hroot|].
  apply Forall_concat. clear -Hall.
  induction Hall as [|d out docs outs Hc _ IH]; constructor; [|exact IH].
  exact (contribution_identified valid_ids d out Hc).
Qed.

Lemma docs_of_app (k : nat) (pre rest : list string) :
  docs_of k (pre ++ rest) = docs_of k pre ++ docs_of (k + length pre) rest.
Proof.
  revert k. induction pre as [|url pre IH]; intros k; simpl.
  - rewrite Nat.add_0_r. reflexivity.
  - replace (k + S (length pre)) with (S k + length pre) by lia.
    destruct (fetch k url) as [[d|]|e]; rewrite IH; reflexivity.
Qed.

End Loop.

Lemma Ok_inj {A} (a b : A) : Ok a = Ok b -> a = b.
Proof. intros H. injection H as ->. reflexivity. Qed.

Lemma isinstance_Exception_true (e : exn) : isinstance_Exception e = true.
Proof. destruct e as [[]]; reflexivity. Qed.

(** C3: whatever the sources answer, every child of the output root carries
    an identifier of the allow-list, [id] for a channel element and
    [channel] for a programme element; this holds for the root at the end of
    the run and also for the root at the point where an exception stops
    it, so no other element is ever appended. *)
Theorem C3_output_identifiers_are_allow_listed
    (requests_get : nat -> string -> result Response)
    (gzip_decompress : list byte -> result (list byte))
    (ET_fromstring : list byte -> result Element)
    (ids_file : string) (urls : list string) :
  Forall (identified (valid_tvg_ids ids_file))
    (children
       (build_root requests_get gzip_decompress ET_fromstring ids_file urls).1).
Proof.
  unfold build_root. apply for_urls_identified. constructor.
Qed.

(** C10: a channel element without an [id] attribute and a programme element
    without a [channel] attribute are dropped without an error, the lookup
    giving [None], which is no member of the allow-list; so every element of
    the output root has its identifier attribute. *)
Theorem C10_elements_without_identifier_are_dropped
    (requests_get : nat -> string -> result Response)
    (gzip_decompress : list byte -> result (list byte))
    (ET_fromstring : list byte -> result Element)
    (ids_file : string) (urls : list string) :
  (forall channel root,
      ET.get channel "id" = None ->
      process_channel (valid_tvg_ids ids_file) channel root = (root, Ok tt))
  /\ (forall programme root,
        ET.get programme "channel" = None ->
        process_programme (valid_tvg_ids ids_file) programme root
        = (root, Ok tt))
  /\ Forall (fun e => (tag e = "channel" /\ is_Some (ET.get e "id"))
                      \/ (tag e = "programme" /\ is_Some (ET.get e "channel")))
       (children
          (build_root requests_get gzip_decompress ET_fromstring
                      ids_file urls).1).
Proof.
  assert (py_in None (valid_tvg_ids ids_file) = false) as Hnone.
  { unfold py_in. apply bool_decide_eq_false, None_not_valid. }
  split; [|split].
  - intros channel root Hget. unfold process_channel.
    rewrite Hget, Hnone. reflexivity.
  - intros programme root Hget. unfold process_programme.
    rewrite Hget, Hnone. reflexivity.
  - eapply Forall_impl;
      [apply for_urls_identified with (root := ET.new "tv"); constructor|].
    intros e [[Htag Hin]|[Htag Hin]]; [left|right]; (split; [exact Htag|]).
    + destruct (ET.get e "id"); [eexists; reflexivity|].
      destruct (None_not_valid _ Hin).
    + destruct (ET.get e "channel"); [eexists; reflexivity|].
      destruct (None_not_valid _ Hin).
Qed.

(** The identifier-free elements of the first demo document are dropped. *)
Lemma C10_witness :
  process_channel (valid_tvg_ids Demo.ids_file) Demo.anonymous_channel
                  (ET.new "tv") = (ET.new "tv", Ok tt)
  /\ process_programme (valid_tvg_ids Demo.ids_file) Demo.anonymous_programme
                       (ET.new "tv") = (ET.new "tv", Ok tt).
Proof.
  pose proof (C10_elements_without_identifier_are_dropped
                Demo.requests_get Demo.gzip_decompress Demo.ET_fromstring
                Demo.ids_file [Demo.url_a]) as (Hc & Hp & _).
  split.
  - apply Hc. vm_compute. reflexivity.
  - apply Hp. vm_compute. reflexivity.
Defined.

(** C5 fails on the code: when the transport raises an exception that is
    no [RequestException], the fetch does not return [None] but raises it;
    nothing catches it, the run ends there with what the sources before
    had added, the source after it, which is up and has an allow-listed
    channel, is never processed, and no artifact is written. *)
Theorem C5_uncaught_transport_exception_aborts_the_run :
  isinstance_RequestException DemoLeak.leak = false
  /\ fetch_and_extract_xml DemoLeak.requests_get Demo.gzip_decompress
        Demo.ET_fromstring 1 DemoLeak.url_bad_host = Raise DemoLeak.leak
  /\ fetch_and_extract_xml DemoLeak.requests_get Demo.gzip_decompress
        Demo.ET_fromstring 2 Demo.url_b = Ok (Some Demo.doc_b)
  /\ kept_channels (valid_tvg_ids Demo.ids_file) Demo.doc_b = [Demo.cnn]
  /\ DemoLeak.build [Demo.url_a; DemoLeak.url_bad_host; Demo.url_b]
     = (extend (ET.new "tv")
          [Demo.espn;
           ET.set_child_text Demo.hockey "title" (Some "NHL Hockey No subtitle")],
        Raise DemoLeak.leak)
  /\ forall os_linesep serialize_xml gzip_compress,
       filter_and_build_epg DemoLeak.requests_get Demo.gzip_decompress
         Demo.ET_fromstring os_linesep serialize_xml gzip_compress
         Demo.ids_file [Demo.url_a; DemoLeak.url_bad_host; Demo.url_b]
       = Raise DemoLeak.leak.
Proof.
  assert (DemoLeak.build [Demo.url_a; DemoLeak.url_bad_host; Demo.url_b]
          = (extend (ET.new "tv")
               [Demo.espn;
                ET.set_child_text Demo.hockey "title"
                                  (Some "NHL Hockey No subtitle")],
             Raise DemoLeak.leak)) as Hrun by (vm_compute; reflexivity).
  split; [reflexivity|].
  split; [vm_compute; reflexivity|].
  split; [vm_compute; reflexivity|].
  split; [vm_compute; reflexivity|].
  split; [exact Hrun|].
  intros os_linesep serialize_xml gzip_compress.
  unfold filter_and_build_epg. unfold DemoLeak.build in Hrun. rewrite Hrun.
  reflexivity.
Qed.

(** ** Programmes and their titles *)

Lemma py_eq_false (a : option string) (s : string) :
  a <> Some s -> py_eq a s = false.
Proof.
  destruct a as [a|]; simpl; [|reflexivity].
  intros Hne. apply String.eqb_neq. congruence.
Qed.

(** C9: an allow-listed programme whose title text is neither "NHL Hockey"
    nor "Live: NFL Football" is appended as it is, so its title text in the
    output is the one of the source. *)
Theorem C9_other_titles_are_unchanged
    (valid_ids : gset (option string)) (programme title root : Element) :
  allowed_programme valid_ids programme = true ->
  ET.find programme "title" = Some title ->
  text title <> Some "NHL Hockey" ->
  text title <> Some "Live: NFL Football" ->
  process_programme valid_ids programme root = (extend root [programme], Ok tt).
Proof.
  intros Hal Hfind H1 H2. unfold process_programme.
  unfold allowed_programme in Hal. rewrite Hal, Hfind. cbv zeta.
  rewrite (py_eq_false _ _ H1), (py_eq_false _ _ H2). reflexivity.
Qed.

Lemma C9_witness :
  process_programme (valid_tvg_ids Demo.ids_file) Demo.regular_show
                    (ET.new "tv")
  = (extend (ET.new "tv") [Demo.regular_show], Ok tt).
Proof.
  apply (C9_other_titles_are_unchanged (valid_tvg_ids Demo.ids_file)
           Demo.regular_show
           (Demo.elem "title" [] (Some "Regular Show") [])).
  - vm_compute. reflexivity.
  - vm_compute. reflexivity.
  - discriminate.
  - discriminate.
Defined.




(** When the title is one of the two special ones and the sub-title node
    has no child element, the test [if subtitle] is false and the
    placeholder is used, whatever the text of the node. *)
Lemma childless_subtitle_gets_placeholder
    (valid_ids : gset (option string)) (programme title subtitle root : Element)
    (t : string) :
  allowed_programme valid_ids programme = true ->
  ET.find programme "title" = Some title ->
  text title = Some t ->
  t = "NHL Hockey" \/ t = "Live: NFL Football" ->
  ET.find programme "sub-title" = Some subtitle ->
  children subtitle = [] ->
  process_programme valid_ids programme root
  = (extend root
       [ET.set_child_text programme "title"
          (Some (String.append (String.append t " ") "No subtitle"))],
     Ok tt).
Proof.
  intros Hal Hfind Htext Ht Hsub Hkids. unfold process_programme.
  unfold allowed_programme in Hal. rewrite Hal, Hfind, Hsub. cbv zeta.
  unfold ET.truth. rewrite Hkids, Htext.
  destruct Ht as [-> | ->]; reflexivity.
Qed.

(** C2 fails on the code: for the allow-listed programme with title
    "NHL Hockey" and a sub-title node of text "Rangers vs Bruins", the title
    written to the output is "NHL Hockey No subtitle". *)
Theorem C2_subtitle_text_is_replaced_by_placeholder :
  ET.find Demo.hockey "sub-title"
  = Some (Demo.elem "sub-title" [] (Some "Rangers vs Bruins") [])
  /\ process_programme (valid_tvg_ids Demo.ids_file) Demo.hockey (ET.new "tv")
     = (extend (ET.new "tv")
          [ET.set_child_text Demo.hockey "title"
                             (Some "NHL Hockey No subtitle")],
        Ok tt)
  /\ (text <$> ET.find (ET.set_child_text Demo.hockey "title"
                          (Some "NHL Hockey No subtitle")) "title")
     = Some (Some "NHL Hockey No subtitle").
Proof.
  split; [vm_compute; reflexivity|].
  split; [|vm_compute; reflexivity].
  apply (childless_subtitle_gets_placeholder (valid_tvg_ids Demo.ids_file)
           Demo.hockey (Demo.elem "title" [] (Some "NHL Hockey") [])
           (Demo.elem "sub-title" [] (Some "Rangers vs Bruins") [])
           (ET.new "tv") "NHL Hockey").
  - vm_compute. reflexivity.
  - vm_compute. reflexivity.
  - reflexivity.
  - left. reflexivity.
  - vm_compute. reflexivity.
  - reflexivity.
Qed.

(** C6 fails on the code: for the allow-listed programme with title
    "Live: NFL Football" whose sub-title node has a child element and no
    text, computing the new title raises [TypeError]; nothing catches it and
    the run ends there, with no artifact written. *)
Theorem C6_subtitle_without_text_raises :
  process_programme (valid_tvg_ids Demo.ids_file) Demo.football (ET.new "tv")
  = (ET.new "tv",
     Raise (mkExn TypeError "can only concatenate str (not NoneType) to str"))
  /\ Demo.build [Demo.url_c; Demo.url_a]
     = (extend (ET.new "tv") [Demo.cnn],
        Raise (mkExn TypeError "can only concatenate str (not NoneType) to str"))
  /\ forall os_linesep serialize_xml gzip_compress,
       filter_and_build_epg Demo.requests_get Demo.gzip_decompress
         Demo.ET_fromstring os_linesep serialize_xml gzip_compress
         Demo.ids_file [Demo.url_c; Demo.url_a]
       = Raise (mkExn TypeError
                      "can only concatenate str (not NoneType) to str").
Proof.
  assert (Demo.build [Demo.url_c; Demo.url_a]
          = (extend (ET.new "tv") [Demo.cnn],
             Raise (mkExn TypeError
                          "can only concatenate str (not NoneType) to str")))
    as Hrun by (vm_compute; reflexivity).
  split; [vm_compute; reflexivity|]. split; [exact Hrun|].
  intros os_linesep serialize_xml gzip_compress.
  unfold filter_and_build_epg. unfold Demo.build in Hrun. rewrite Hrun.
  reflexivity.
Qed.

(** ** Order of the output *)

(** C4: when the run ends without an exception, the children of the output
    root are the contributions of the fetched documents, one after the
    other in the order of the source list, and each contribution is the
    allow-listed channels of its document in document order followed by
    images of its allow-listed programmes in document order; in particular,
    when source A comes before source B in the list and each has exactly one
    allow-listed channel, A's channel comes before B's in the output. *)
Theorem C4_output_order_follows_sources
    (requests_get : nat -> string -> result Response)
    (gzip_decompress : list byte -> result (list byte))
    (ET_fromstring : list byte -> result Element)
    (ids_file : string) :
  (forall urls root,
      build_root requests_get gzip_decompress ET_fromstring ids_file urls
      = (root, Ok tt) ->
      exists outs,
        Forall2 (contribution (valid_tvg_ids ids_file))
                (fetched requests_get gzip_decompress ET_fromstring 0 urls)
                outs
        /\ children root = concat outs)
  /\ (forall pre mid post url_A url_B doc_A doc_B a b root,
        build_root requests_get gzip_decompress ET_fromstring ids_file
                   (pre ++ url_A :: mid ++ url_B :: post)
        = (root, Ok tt) ->
        fetch_and_extract_xml requests_get gzip_decompress ET_fromstring
                              (length pre) url_A = Ok (Some doc_A) ->
        fetch_and_extract_xml requests_get gzip_decompress ET_fromstring
                              (S (length pre + length mid)) url_B
        = Ok (Some doc_B) ->
        List.filter (allowed_channel (valid_tvg_ids ids_file))
                    (ET.findall doc_A "channel") = [a] ->
        List.filter (allowed_channel (valid_tvg_ids ids_file))
                    (ET.findall doc_B "channel") = [b] ->
        precedes a b (children root)).
Proof.
  assert (forall urls root,
      build_root requests_get gzip_decompress ET_fromstring ids_file urls
      = (root, Ok tt) ->
      exists outs,
        Forall2 (contribution (valid_tvg_ids ids_file))
                (fetched requests_get gzip_decompress ET_fromstring 0 urls)
                outs
        /\ children root = concat outs) as Hmain.
  { intros urls root Hrun. unfold build_root in Hrun.
    destruct (for_urls_run requests_get gzip_decompress ET_fromstring
                (valid_tvg_ids ids_file) 0 urls (ET.new "tv"))
      as (docs & outs & r & Heq & Hall & _ & Hok).
    rewrite Heq in Hrun. injection Hrun as <- ->.
    exists outs. split; [|reflexivity].
    rewrite <- (Hok tt eq_refl). exact Hall. }
  split; [exact Hmain|].
  intros pre mid post url_A url_B doc_A doc_B a b root Hrun HA HB Ha Hb.
  destruct (Hmain _ _ Hrun) as (outs & Hall & ->). clear Hmain Hrun.
  rewrite docs_of_app in Hall. simpl in Hall. rewrite HA in Hall.
  rewrite docs_of_app in Hall. simpl in Hall.
  replace (S (length pre) + length mid) with (S (length pre + length mid))
    in Hall by lia.
  rewrite HB in Hall.
  apply Forall2_app_inv_l in Hall as (o1 & rest1 & _ & Hall & ->).
  apply Forall2_cons_inv_l in Hall as (outA & rest2 & HcA & Hall & ->).
  apply Forall2_app_inv_l in Hall as (o2 & rest3 & _ & Hall & ->).
  apply Forall2_cons_inv_l in Hall as (outB & o3 & HcB & _ & ->).
  destruct HcA as (_ & psA & -> & _). destruct HcB as (_ & psB & -> & _).
  rewrite Ha, Hb.
  exists (concat o1), (psA ++ concat o2), (psB ++ concat o3).
  rewrite concat_app. simpl. rewrite concat_app. simpl.
  rewrite <- !app_assoc. reflexivity.
Qed.

(** In the demo run over a good source, a dead one and a second good one,
    the ESPN channel of the first comes before the CNN channel of the
    last. *)
Lemma C4_witness :
  (exists outs,
      Forall2 (contribution (valid_tvg_ids Demo.ids_file))
              (fetched Demo.requests_get Demo.gzip_decompress
                       Demo.ET_fromstring 0
                       [Demo.url_a; Demo.url_down; Demo.url_b]) outs
      /\ children (Demo.build [Demo.url_a; Demo.url_down; Demo.url_b]).1
         = concat outs)
  /\ precedes Demo.espn Demo.cnn
       (children (Demo.build [Demo.url_a; Demo.url_down; Demo.url_b]).1).
Proof.
  assert (Demo.build [Demo.url_a; Demo.url_down; Demo.url_b]
          = ((Demo.build [Demo.url_a; Demo.url_down; Demo.url_b]).1, Ok tt))
    as Hrun by (vm_compute; reflexivity).
  pose proof (C4_output_order_follows_sources Demo.requests_get
                Demo.gzip_decompress Demo.ET_fromstring Demo.ids_file)
    as (Hall & Hpair).
  split.
  - apply Hall. exact Hrun.
  - apply (Hpair [] [Demo.url_down] [] Demo.url_a Demo.url_b
                 Demo.doc_a Demo.doc_b).
    + exact Hrun.
    + vm_compute. reflexivity.
    + vm_compute. reflexivity.
    + vm_compute. reflexivity.
    + vm_compute. reflexivity.
Defined.

(** ** The two artifacts *)

Module OutputFacts.
Import Output.

Lemma utf8_app (a b : string) : utf8 (String.append a b) = utf8 a ++ utf8 b.
Proof.
  induction a as [|c a IH]; [reflexivity|].
  change (utf8_char c ++ utf8 (String.append a b)
          = (utf8_char c ++ utf8 a) ++ utf8 b).
  rewrite IH, app_assoc. reflexivity.
Qed.

Lemma newlines_app (a b : string) :
  newlines (String.append a b) = newlines a + newlines b.
Proof.
  induction a as [|c a IH]; [reflexivity|].
  change (newlines (String.append (String c a) b))
    with ((if Ascii.eqb c TextFile.LF then 1 else 0)
          + newlines (String.append a b)).
  rewrite IH. simpl. lia.
Qed.

(** With ["\n"] as line separator the text layer writes the text as it
    is. *)
Lemma translate_posix (s : string) : translate_newlines posix_linesep s = s.
Proof.
  induction s as [|c s IH]; [reflexivity|]. simpl.
  destruct (Ascii.eqb c TextFile.LF) eqn:Hc.
  - apply Ascii.eqb_eq in Hc. subst c. rewrite IH. reflexivity.
  - rewrite IH. reflexivity.
Qed.

(** With ["\r\n"] every newline of the text costs one more byte. *)
Lemma length_translate_windows (s : string) :
  length (utf8 (translate_newlines windows_linesep s))
  = length (utf8 s) + newlines s.
Proof.
  induction s as [|c s IH]; [reflexivity|]. simpl.
  destruct (Ascii.eqb c TextFile.LF) eqn:Hc.
  - apply Ascii.eqb_eq in Hc. subst c.
    rewrite utf8_app, !length_app, IH. simpl. lia.
  - simpl. rewrite !length_app, IH. lia.
Qed.

Lemma newlines_tree_text (serialize_xml : Element -> string) (root : Element) :
  0 < newlines (tree_text serialize_xml root).
Proof.
  unfold tree_text. rewrite !newlines_app. simpl. lia.
Qed.

(** On a platform whose line separator is ["\r\n"], the file written
    through the path is longer than the text that goes into the gzip
    stream: whatever the codec, the serializer and the document, the
    decompressed gzip artifact is not the XML artifact. *)
Lemma windows_artifacts_differ
    (gzip_compress : list byte -> list byte)
    (gzip_decompress : list byte -> result (list byte))
    (serialize_xml : Element -> string) (root : Element) :
  (forall data, gzip_decompress (gzip_compress data) = Ok data) ->
  gzip_decompress (write_to_gzip serialize_xml gzip_compress root)
  <> Ok (write_to_path windows_linesep serialize_xml root).
Proof.
  intros Hround. unfold write_to_gzip, write_to_path. rewrite Hround.
  intros Heq. apply Ok_inj, (f_equal (@length byte)) in Heq.
  rewrite length_translate_windows in Heq.
  pose proof (newlines_tree_text serialize_xml root). lia.
Qed.

End OutputFacts.

(** C8, as the code has it: on a platform whose line separator is ["\n"],
    and with a gzip codec that gives back what it compressed, a run that
    ends without an exception writes a gzip artifact that decompresses to
    exactly the bytes of the XML artifact. *)
Theorem C8_gzip_artifact_decompresses_to_xml_artifact
    (requests_get : nat -> string -> result Response)
    (gzip_decompress : list byte -> result (list byte))
    (ET_fromstring : list byte -> result Element)
    (serialize_xml : Element -> string)
    (gzip_compress : list byte -> list byte)
    (ids_file : string) (urls : list string) (artifacts : Output.Artifacts) :
  (forall data, gzip_decompress (gzip_compress data) = Ok data) ->
  filter_and_build_epg requests_get gzip_decompress ET_fromstring
    Output.posix_linesep serialize_xml gzip_compress ids_file urls
  = Ok artifacts ->
  exists gz,
    Output.OUTPUT_FILE_GZ artifacts = Some gz
    /\ gzip_decompress gz = Ok (Output.OUTPUT_FILE artifacts).
Proof.
  intros Hround Hrun. unfold filter_and_build_epg in Hrun.
  destruct (build_root _ _ _ ids_file urls) as [root [u|e]];
    [|discriminate].
  injection Hrun as <-. unfold Output.write_artifacts. simpl.
  eexists. split; [reflexivity|].
  unfold Output.write_to_gzip, Output.write_to_path.
  rewrite Hround, OutputFacts.translate_posix. reflexivity.
Qed.

Lemma C8_witness :
  exists artifacts gz,
    filter_and_build_epg Demo.requests_get Demo.gzip_decompress
      Demo.ET_fromstring Output.posix_linesep Demo.serialize_xml
      Demo.gzip_compress Demo.ids_file [Demo.url_a; Demo.url_b]
    = Ok artifacts
    /\ Output.OUTPUT_FILE_GZ artifacts = Some gz
    /\ Demo.gzip_decompress gz = Ok (Output.OUTPUT_FILE artifacts).
Proof.
  eexists.
  match goal with
  | |- exists gz, ?run = Ok ?a /\ _ =>
      assert (run = Ok a) as Hrun by (vm_compute; reflexivity)
  end.
  destruct (C8_gzip_artifact_decompresses_to_xml_artifact
              Demo.requests_get Demo.gzip_decompress Demo.ET_fromstring
              Demo.serialize_xml Demo.gzip_compress Demo.ids_file
              [Demo.url_a; Demo.url_b] _ (fun data => eq_refl) Hrun)
    as (gz & Hgz & Hdec).
  exists gz. split; [exact Hrun|]. split; [exact Hgz|exact Hdec].
Defined.

(** C8 fails as stated: with ["\r\n"] as line separator, the demo codec,
    which gives back what it compressed, and the demo run over one good
    source, the gzip artifact does not decompress to the XML artifact. *)
Lemma C8_counterexample :
  (forall data, Demo.gzip_decompress (Demo.gzip_compress data) = Ok data)
  /\ exists artifacts gz,
       filter_and_build_epg Demo.requests_get Demo.gzip_decompress
         Demo.ET_fromstring Output.windows_linesep Demo.serialize_xml
         Demo.gzip_compress Demo.ids_file [Demo.url_a]
       = Ok artifacts
       /\ Output.OUTPUT_FILE_GZ artifacts = Some gz
       /\ Demo.gzip_decompress gz <> Ok (Output.OUTPUT_FILE artifacts).
Proof.
  split; [reflexivity|].
  unfold filter_and_build_epg.
  destruct (build_root Demo.requests_get Demo.gzip_decompress
              Demo.ET_fromstring Demo.ids_file [Demo.url_a])
    as [root [u|e]] eqn:Hrun; [|vm_compute in Hrun; discriminate].
  eexists _, _. split; [reflexivity|]. split; [reflexivity|].
  apply OutputFacts.windows_artifacts_differ. reflexivity.
Qed.

(** * Further properties of the code *)

(** ** Fetching *)

Section FetchFacts.

Variable requests_get : nat -> string -> result Response.
Variable gzip_decompress : list byte -> result (list byte).
Variable ET_fromstring : list byte -> result Element.

Lemma raise_for_status_ok (response : Response) :
  raise_for_status response = Ok tt
  <-> ~ (400 <= status_code response < 600)%Z.
Proof.
  unfold raise_for_status.
  destruct ((400 <=? status_code response)%Z
            && (status_code response <? 600)%Z) eqn:H.
  - apply andb_true_iff in H as [H1 H2]. split; [discriminate|]. lia.
  - apply andb_false_iff in H. split; [|reflexivity]. intros _. lia.
Qed.

(** The fetch returns a document exactly when the transport answers with a
    status outside 400..599 and the body, decompressed first when the URL
    ends in [.gz] and taken as it is otherwise, parses to that document. *)
Theorem fetch_returns_document_iff (k : nat) (url : string) (d : Element) :
  fetch_and_extract_xml requests_get gzip_decompress ET_fromstring k url
  = Ok (Some d)
  <-> exists response,
        requests_get k url = Ok response
        /\ ~ (400 <= status_code response < 600)%Z
        /\ ((PyStr.endswith url ".gz" = true
             /\ exists data, gzip_decompress (content response) = Ok data
                             /\ ET_fromstring data = Ok d)
            \/ (PyStr.endswith url ".gz" = false
                /\ ET_fromstring (content response) = Ok d)).
Proof.
  unfold fetch_and_extract_xml. split.
  - destruct (requests_get k url) as [response|e]; simpl.
    + destruct (raise_for_status response) as [[]|e] eqn:Hst; simpl.
      * intros H. exists response. split; [reflexivity|].
        split; [apply raise_for_status_ok; exact Hst|].
        destruct (PyStr.endswith url ".gz").
        -- left. split; [reflexivity|].
           destruct (gzip_decompress (content response)) as [data|e];
             simpl in H.
           ++ exists data. split; [reflexivity|].
              destruct (ET_fromstring data) as [d'|e]; simpl in H.
              ** congruence.
              ** rewrite isinstance_Exception_true in H. discriminate.
           ++ rewrite isinstance_Exception_true in H. discriminate.
        -- right. split; [reflexivity|].
           destruct (ET_fromstring (content response)) as [d'|e]; simpl in H.
           ++ congruence.
           ++ rewrite isinstance_Exception_true in H. discriminate.
      * destruct (isinstance_RequestException e); discriminate.
    + destruct (isinstance_RequestException e); discriminate.
  - intros (response & -> & Hst & Hbody). simpl.
    apply raise_for_status_ok in Hst. rewrite Hst. simpl.
    destruct Hbody as [(-> & data & -> & Hd)|(-> & Hd)]; simpl;
      rewrite Hd; reflexivity.
Qed.

(** The fetch raises only what the transport raises outside
    [RequestException]: neither a bad status nor a failure to decompress or
    to parse ever leaves it as an exception. *)
Theorem fetch_raises_iff (k : nat) (url : string) (e : exn) :
  fetch_and_extract_xml requests_get gzip_decompress ET_fromstring k url
  = Raise e
  <-> requests_get k url = Raise e /\ isinstance_RequestException e = false.
Proof.
  unfold fetch_and_extract_xml. split.
  - destruct (requests_get k url) as [response|e']; simpl.
    + unfold raise_for_status.
      destruct ((400 <=? status_code response)%Z
                && (status_code response <? 600)%Z); simpl; [discriminate|].
      destruct (PyStr.endswith url ".gz").
      * destruct (gzip_decompress (content response)) as [data|e1]; simpl.
        -- destruct (ET_fromstring data) as [d'|e2]; simpl; [discriminate|].
           rewrite isinstance_Exception_true. discriminate.
        -- rewrite isinstance_Exception_true. discriminate.
      * destruct (ET_fromstring (content response)) as [d'|e2]; simpl;
          [discriminate|].
        rewrite isinstance_Exception_true. discriminate.
    + destruct (isinstance_RequestException e') eqn:He; [discriminate|].
      intros [= <-]. split; [reflexivity|exact He].
  - intros (-> & He). simpl. rewrite He. reflexivity.
Qed.

End FetchFacts.

Lemma fetch_returns_document_witness :
  fetch_and_extract_xml Demo.requests_get Demo.gzip_decompress
                        Demo.ET_fromstring 0 Demo.url_b = Ok (Some Demo.doc_b)
  /\ exists response,
       Demo.requests_get 0 Demo.url_a = Ok response
       /\ ~ (400 <= status_code response < 600)%Z.
Proof.
  split.
  - apply (fetch_returns_document_iff Demo.requests_get Demo.gzip_decompress
             Demo.ET_fromstring 0 Demo.url_b Demo.doc_b).
    eexists. split; [reflexivity|]. split; [simpl; lia|].
    left. split; [reflexivity|]. eexists. split; reflexivity.
  - destruct (proj1 (fetch_returns_document_iff Demo.requests_get
                       Demo.gzip_decompress Demo.ET_fromstring 0 Demo.url_a
                       Demo.doc_a) eq_refl) as (response & Hget & Hst & _).
    exists response. split; assumption.
Defined.

Lemma fetch_raises_witness :
  fetch_and_extract_xml DemoMore.flaky_get Demo.gzip_decompress
                        Demo.ET_fromstring 1 Demo.url_b
  = Raise (mkExn (OtherException "ValueError") "bad address").
Proof.
  apply (fetch_raises_iff DemoMore.flaky_get Demo.gzip_decompress
           Demo.ET_fromstring 1 Demo.url_b).
  split; reflexivity.
Defined.

(** ** The suffix test *)

Module SuffixFacts.

Lemma length_append (a b : string) :
  String.length (String.append a b) = String.length a + String.length b.
Proof.
  induction a as [|c a IH]; [reflexivity|].
  rewrite PyStrFacts.append_cons. simpl. rewrite IH. reflexivity.
Qed.

Lemma substring_all (s : string) : String.substring 0 (String.length s) s = s.
Proof. induction s as [|c s IH]; simpl; [reflexivity|]. rewrite IH. reflexivity. Qed.

Lemma substring_after (p suffix : string) :
  String.substring (String.length p) (String.length suffix)
                   (String.append p suffix) = suffix.
Proof.
  induction p as [|c p IH]; [apply substring_all|].
  rewrite PyStrFacts.append_cons. simpl. exact IH.
Qed.

Lemma substring_split (s : string) (k : nat) :
  k <= String.length s ->
  s = String.append (String.substring 0 k s)
                    (String.substring k (String.length s - k) s).
Proof.
  revert k. induction s as [|c s IH]; intros k Hk.
  - simpl in Hk. assert (k = 0) as -> by lia. reflexivity.
  - destruct k as [|k].
    + simpl. rewrite substring_all. reflexivity.
    + simpl in Hk. simpl. rewrite PyStrFacts.append_cons. f_equal.
      apply IH. lia.
Qed.

End SuffixFacts.

(** [s.endswith(suffix)] holds exactly when [s] is some string followed by
    [suffix]; with the suffix [.gz] this is the whole test that decides
    whether a source is decompressed. *)
Theorem endswith_iff (s suffix : string) :
  PyStr.endswith s suffix = true <-> exists p, s = String.append p suffix.
Proof.
  unfold PyStr.endswith. rewrite andb_true_iff, Nat.leb_le, String.eqb_eq.
  split.
  - intros [Hle Hsub].
    exists (String.substring 0 (String.length s - String.length suffix) s).
    rewrite <- Hsub at 2.
    replace (String.length suffix)
      with (String.length s - (String.length s - String.length suffix))
      at 3 by lia.
    apply SuffixFacts.substring_split. lia.
  - intros (p & ->). rewrite SuffixFacts.length_append. split; [lia|].
    replace (String.length p + String.length suffix - String.length suffix)
      with (String.length p) by lia.
    apply SuffixFacts.substring_after.
Qed.

Lemma endswith_witness :
  PyStr.endswith "http://b.example/epg.xml.gz" ".gz" = true
  /\ exists p, "feed.gz" = String.append p ".gz".
Proof.
  split.
  - apply (endswith_iff "http://b.example/epg.xml.gz" ".gz").
    exists "http://b.example/epg.xml". reflexivity.
  - apply (endswith_iff "feed.gz" ".gz"). reflexivity.
Defined.

(** ** The lines of the identifier file *)

Module LineFacts.
Import TextFile.

Lemma universal_newlines_no_cr (after_cr : bool) (s : string) :
  contains_char CR (universal_newlines after_cr s) = false.
Proof.
  revert after_cr. induction s as [|c s IH]; intros after_cr; [reflexivity|].
  simpl. destruct (Ascii.eqb c CR) eqn:Hcr.
  - simpl. apply IH.
  - destruct (Ascii.eqb c LF) eqn:Hlf.
    + destruct after_cr; [apply IH|]. simpl. apply IH.
    + simpl. rewrite Hcr. apply IH.
Qed.

Lemma universal_newlines_id (s : string) :
  contains_char CR s = false -> universal_newlines false s = s.
Proof.
  induction s as [|c s IH]; [reflexivity|]. simpl.
  intros H. apply orb_false_iff in H as [Hc Hs]. rewrite Hc.
  destruct (Ascii.eqb c LF) eqn:Hlf.
  - apply Ascii.eqb_eq in Hlf. subst c. rewrite (IH Hs). reflexivity.
  - rewrite (IH Hs). reflexivity.
Qed.

Lemma join_lines_cons (l : string) (ls : list string) :
  join_lines (l :: ls) = String.append l (join_lines ls).
Proof. reflexivity. Qed.

Lemma join_split_lines (s : string) : join_lines (split_lines s) = s.
Proof.
  induction s as [|c s IH]; [reflexivity|]. simpl.
  destruct (Ascii.eqb c LF).
  - rewrite join_lines_cons, IH. reflexivity.
  - destruct (split_lines s) as [|l ls].
    + change (join_lines []) with EmptyString in IH. subst s. reflexivity.
    + rewrite join_lines_cons in IH.
      rewrite join_lines_cons, PyStrFacts.append_cons, IH. reflexivity.
Qed.

Lemma split_lines_nonempty (s : string) :
  Forall (fun line => line <> EmptyString) (split_lines s).
Proof.
  induction s as [|c s IH]; simpl; [constructor|].
  destruct (Ascii.eqb c LF).
  - constructor; [discriminate|exact IH].
  - destruct (split_lines s) as [|l ls].
    + constructor; [discriminate|constructor].
    + inversion IH; subst. constructor; [discriminate|assumption].
Qed.

Lemma split_lines_newline_last (s : string) :
  Forall (fun line =>
            Output.newlines line <= 1
            /\ (Output.newlines line = 1 -> PyStr.last_char line = Some LF))
         (split_lines s).
Proof.
  induction s as [|c s IH]; simpl; [constructor|].
  destruct (Ascii.eqb c LF) eqn:Hlf.
  - apply Ascii.eqb_eq in Hlf. subst c.
    constructor; [|exact IH]. split; [simpl; lia|reflexivity].
  - destruct (split_lines s) as [|l ls].
    + constructor; [|constructor]. simpl. rewrite Hlf. split; [lia|lia].
    + inversion IH as [|? ? [Hle Hlast] Hrest]; subst.
      constructor; [|exact Hrest].
      simpl Output.newlines. rewrite Hlf. simpl. split; [exact Hle|].
      intros H1. destruct l as [|a l]; [simpl in H1; lia|].
      exact (Hlast H1).
Qed.

End LineFacts.

(** The text is read with every ["\r\n"] and every lone ["\r"] turned into
    ["\n"]: what is read never holds a ["\r"], and a text without ["\r"] is
    read as it is. *)
Theorem newlines_are_universal (content : string) :
  contains_char TextFile.CR (TextFile.universal_newlines false content) = false
  /\ (contains_char TextFile.CR content = false ->
      TextFile.universal_newlines false content = content).
Proof.
  split.
  - apply LineFacts.universal_newlines_no_cr.
  - apply LineFacts.universal_newlines_id.
Qed.

Lemma newlines_are_universal_witness :
  TextFile.universal_newlines false
    (String.append "ESPN" (String TextFile.LF "CNN"))
  = String.append "ESPN" (String TextFile.LF "CNN").
Proof.
  apply (newlines_are_universal
           (String.append "ESPN" (String TextFile.LF "CNN"))).
  reflexivity.
Defined.

(** The lines the file yields lose nothing and overlap nowhere: joined
    together they are the text read; none of them is empty; and a line
    holds at most one ["\n"], which is then its last character. *)
Theorem lines_partition_the_text (content : string) :
  join_lines (TextFile.lines content)
  = TextFile.universal_newlines false content
  /\ Forall (fun line =>
               line <> EmptyString
               /\ Output.newlines line <= 1
               /\ (Output.newlines line = 1 ->
                   PyStr.last_char line = Some TextFile.LF))
            (TextFile.lines content).
Proof.
  unfold TextFile.lines. split; [apply LineFacts.join_split_lines|].
  apply Forall_and. split.
  - apply LineFacts.split_lines_nonempty.
  - apply LineFacts.split_lines_newline_last.
Qed.

Lemma lines_partition_witness :
  PyStr.last_char (String.append "ESPN" (String TextFile.LF EmptyString))
  = Some TextFile.LF.
Proof.
  pose proof (lines_partition_the_text Demo.ids_file) as [_ Hall].
  assert (TextFile.lines Demo.ids_file
          = [String.append "ESPN" (String TextFile.LF EmptyString);
             String.append "  CNN  " (String TextFile.LF EmptyString);
             String.append "ESPN" (String TextFile.LF EmptyString);
             String TextFile.LF EmptyString]) as Hlines
    by (vm_compute; reflexivity).
  rewrite Hlines in Hall.
  inversion Hall as [|? ? (_ & _ & Hlast) _]. apply Hlast. reflexivity.
Defined.

(** ** Stripping, once more *)

Module StripFacts.
Import PyStr.

Lemma lstrip_all_space (s : string) : all_space s = true -> lstrip s = EmptyString.
Proof.
  induction s as [|c s IH]; [reflexivity|]. simpl.
  intros H. apply andb_true_iff in H as [Hc Hs]. rewrite Hc. exact (IH Hs).
Qed.

Lemma lstrip_padding (l s : string) :
  all_space l = true -> lstrip (String.append l s) = lstrip s.
Proof.
  induction l as [|c l IH]; [reflexivity|]. simpl.
  intros H. apply andb_true_iff in H as [Hc Hl].
  rewrite ?PyStrFacts.append_cons. simpl. rewrite Hc. exact (IH Hl).
Qed.

Lemma rstrip_all_space (s : string) : all_space s = true -> rstrip s = EmptyString.
Proof.
  induction s as [|c s IH]; [reflexivity|]. simpl.
  intros H. apply andb_true_iff in H as [Hc Hs]. rewrite (IH Hs), Hc.
  reflexivity.
Qed.

Lemma rstrip_padding (s r : string) :
  all_space r = true -> rstrip (String.append s r) = rstrip s.
Proof.
  intros Hr. induction s as [|c s IH].
  - rewrite PyStrFacts.append_empty. apply rstrip_all_space. exact Hr.
  - rewrite ?PyStrFacts.append_cons. simpl. rewrite IH. reflexivity.
Qed.

Lemma rstrip_id (s : string) :
  (forall c, last_char s = Some c -> isspace c = false) -> rstrip s = s.
Proof.
  induction s as [|c s IH]; [reflexivity|]. intros Hlast. simpl.
  destruct s as [|a s].
  - simpl. rewrite (Hlast c eq_refl). reflexivity.
  - rewrite IH; [reflexivity|]. exact Hlast.
Qed.

Lemma lstrip_id (s : string) :
  (forall c, first_char s = Some c -> isspace c = false) -> lstrip s = s.
Proof.
  destruct s as [|c s]; [reflexivity|]. intros Hfirst. simpl.
  rewrite (Hfirst c eq_refl). reflexivity.
Qed.

Lemma all_space_append (a b : string) :
  all_space (String.append a b) = all_space a && all_space b.
Proof.
  induction a as [|c a IH]; [reflexivity|].
  rewrite ?PyStrFacts.append_cons. simpl. rewrite IH, andb_assoc. reflexivity.
Qed.

Lemma strip_empty_iff (s : string) :
  strip s = EmptyString <-> all_space s = true.
Proof.
  split.
  - intros He. destruct (PyStrFacts.strip_spec s) as (l & r & Hs & Hl & Hr & _).
    rewrite He, PyStrFacts.append_empty in Hs. rewrite Hs, all_space_append.
    rewrite Hl, Hr. reflexivity.
  - intros Hs. unfold strip. rewrite (lstrip_all_space _ Hs). reflexivity.
Qed.

End StripFacts.

(** Stripping a string that is white space, then a string that neither
    starts nor ends with white space, then white space again, gives the
    string in the middle: padding of any length on either side is removed
    and nothing else is. *)
Theorem strip_removes_padding (l m r : string) :
  PyStr.all_space l = true -> PyStr.all_space r = true -> PyStr.trimmed m ->
  PyStr.strip (String.append l (String.append m r)) = m.
Proof.
  intros Hl Hr [Hfirst Hlast]. unfold PyStr.strip.
  rewrite (StripFacts.lstrip_padding _ _ Hl).
  destruct m as [|c m].
  - rewrite PyStrFacts.append_empty, (StripFacts.lstrip_all_space _ Hr).
    reflexivity.
  - rewrite StripFacts.lstrip_id.
    + rewrite (StripFacts.rstrip_padding _ _ Hr).
      apply StripFacts.rstrip_id. exact Hlast.
    + rewrite ?PyStrFacts.append_cons. exact Hfirst.
Qed.

Lemma strip_removes_padding_witness :
  PyStr.strip (String.append "  " (String.append "BBC One"
                 (String " " (String TextFile.CR (String TextFile.LF "")))))
  = "BBC One".
Proof.
  apply (strip_removes_padding "  " "BBC One"
           (String " " (String TextFile.CR (String TextFile.LF "")))).
  - reflexivity.
  - reflexivity.
  - split; intros c [= <-]; reflexivity.
Defined.

(** ** More on the allow-list *)

Lemma member_is_trimmed (ids_file id : string) :
  Some id ∈ valid_tvg_ids ids_file -> PyStr.trimmed id.
Proof.
  rewrite elem_of_valid_tvg_ids. intros (line & _ & [= ->]).
  destruct (PyStrFacts.strip_spec line) as (_ & _ & _ & _ & _ & H). exact H.
Qed.

Lemma py_in_false (x : option string) (ids : gset (option string)) :
  x ∉ ids -> py_in x ids = false.
Proof. intros H. unfold py_in. apply bool_decide_eq_false. exact H. Qed.

Lemma py_in_true (x : option string) (ids : gset (option string)) :
  x ∈ ids -> py_in x ids = true.
Proof. intros H. unfold py_in. apply bool_decide_eq_true. exact H. Qed.

(** The identifier of an element is compared as it stands: when it starts
    or ends with white space it is no member of the allow-list, whatever the
    file holds, and the channel or programme is dropped. *)
Theorem padded_identifier_is_never_matched
    (ids_file : string) (e root : Element) (id : string) :
  ~ PyStr.trimmed id ->
  (ET.get e "id" = Some id ->
   process_channel (valid_tvg_ids ids_file) e root = (root, Ok tt))
  /\ (ET.get e "channel" = Some id ->
      process_programme (valid_tvg_ids ids_file) e root = (root, Ok tt)).
Proof.
  intros Hpad.
  assert (py_in (Some id) (valid_tvg_ids ids_file) = false) as Hout.
  { apply py_in_false. intros Hin. apply Hpad.
    exact (member_is_trimmed _ _ Hin). }
  split; intros Hget.
  - unfold process_channel. rewrite Hget, Hout. reflexivity.
  - unfold process_programme. rewrite Hget, Hout. reflexivity.
Qed.

Lemma padded_identifier_witness :
  process_channel (valid_tvg_ids Demo.ids_file) DemoMore.padded_channel
                  (ET.new "tv") = (ET.new "tv", Ok tt).
Proof.
  refine (proj1 (padded_identifier_is_never_matched Demo.ids_file
                   DemoMore.padded_channel (ET.new "tv") "ESPN " _) _).
  - intros [_ H]. specialize (H " "%char eq_refl). discriminate.
  - vm_compute. reflexivity.
Defined.

(** The empty string is a member of the allow-list exactly when the file
    has a line of white space only (a blank line is one); a channel whose
    [id] is the empty string is then appended. *)
Theorem blank_line_allows_empty_identifier (ids_file : string) :
  (Some EmptyString ∈ valid_tvg_ids ids_file
   <-> exists line, line ∈ TextFile.lines ids_file
                    /\ PyStr.all_space line = true)
  /\ (forall line channel root,
        line ∈ TextFile.lines ids_file -> PyStr.all_space line = true ->
        ET.get channel "id" = Some EmptyString ->
        process_channel (valid_tvg_ids ids_file) channel root
        = (extend root [channel], Ok tt)).
Proof.
  assert (Some EmptyString ∈ valid_tvg_ids ids_file
          <-> exists line, line ∈ TextFile.lines ids_file
                           /\ PyStr.all_space line = true) as Hiff.
  { rewrite elem_of_valid_tvg_ids. split.
    - intros (line & Hin & [= He]). exists line. split; [exact Hin|].
      apply StripFacts.strip_empty_iff. symmetry. exact He.
    - intros (line & Hin & Hsp). exists line. split; [exact Hin|].
      apply StripFacts.strip_empty_iff in Hsp. rewrite Hsp. reflexivity. }
  split; [exact Hiff|].
  intros line channel root Hin Hsp Hget. unfold process_channel.
  rewrite Hget, py_in_true; [reflexivity|].
  apply Hiff. exists line. split; assumption.
Qed.

Lemma blank_line_witness :
  Some EmptyString ∈ valid_tvg_ids Demo.ids_file
  /\ process_channel (valid_tvg_ids Demo.ids_file) DemoMore.nameless_channel
                     (ET.new "tv")
     = (extend (ET.new "tv") [DemoMore.nameless_channel], Ok tt).
Proof.
  pose proof (blank_line_allows_empty_identifier Demo.ids_file) as (Hiff & Hkeep).
  assert (String TextFile.LF EmptyString ∈ TextFile.lines Demo.ids_file) as Hin
    by (vm_compute; do 3 right; left).
  split.
  - apply Hiff. exists (String TextFile.LF EmptyString).
    split; [exact Hin|reflexivity].
  - apply (Hkeep (String TextFile.LF EmptyString)).
    + exact Hin.
    + reflexivity.
    + vm_compute. reflexivity.
Defined.

Lemma size_foldl_add (f : string -> option string) (ls : list string)
    (acc : gset (option string)) :
  size (foldl (fun acc line => {[ f line ]} ∪ acc) acc ls)
  <= size acc + length ls.
Proof.
  revert acc. induction ls as [|l ls IH]; intros acc; simpl; [lia|].
  etrans; [apply IH|].
  rewrite size_union_alt, size_singleton.
  assert (acc ∖ {[f l]} ⊆ acc) as Hsub.
  { intros x Hx. apply elem_of_difference in Hx as [Hx _]. exact Hx. }
  apply subseteq_size in Hsub. lia.
Qed.

(** The allow-list has at most as many members as the file has lines, and
    fewer when two lines strip to the same identifier. *)
Theorem allow_list_size_bound (ids_file : string) :
  size (valid_tvg_ids ids_file) <= length (TextFile.lines ids_file)
  /\ (forall i j a b,
        i <> j ->
        TextFile.lines ids_file !! i = Some a ->
        TextFile.lines ids_file !! j = Some b ->
        PyStr.strip a = PyStr.strip b ->
        size (valid_tvg_ids ids_file) < length (TextFile.lines ids_file)).
Proof.
  assert (forall ls : list string,
             size (foldl (fun acc line => {[ Some (PyStr.strip line) ]} ∪ acc)
                         (∅ : gset (option string)) ls) <= length ls) as Hle.
  { intros ls.
    pose proof (size_foldl_add (fun line => Some (PyStr.strip line)) ls ∅) as H.
    rewrite size_empty in H. exact H. }
  split; [apply Hle|].
  intros i j a b Hij Hi Hj Hab. unfold valid_tvg_ids.
  set (ls := TextFile.lines ids_file) in *.
  assert (foldl (fun acc line => {[ Some (PyStr.strip line) ]} ∪ acc)
                (∅ : gset (option string)) ls
          = foldl (fun acc line => {[ Some (PyStr.strip line) ]} ∪ acc)
                  (∅ : gset (option string)) (delete i ls)) as ->.
  { apply set_eq. intros x.
    rewrite !(elem_of_foldl_add (fun line => Some (PyStr.strip line))).
    split; (intros [H|(line & Hin & ->)]; [left; exact H|right]).
    - apply list_elem_of_lookup in Hin as (n & Hn).
      destruct (decide (n = i)) as [->|Hni].
      + exists b. split; [|congruence].
        apply list_elem_of_lookup.
        destruct (decide (j < i)) as [Hlt|Hge].
        * exists j. rewrite list_lookup_delete_lt by exact Hlt. exact Hj.
        * exists (pred j). rewrite list_lookup_delete_ge by lia.
          replace (S (pred j)) with j by lia. exact Hj.
      + exists line. split; [|reflexivity].
        apply list_elem_of_lookup.
        destruct (decide (n < i)) as [Hlt|Hge].
        * exists n. rewrite list_lookup_delete_lt by exact Hlt. exact Hn.
        * exists (pred n). rewrite list_lookup_delete_ge by lia.
          replace (S (pred n)) with n by lia. exact Hn.
    - exists line. split; [|reflexivity].
      exact (list_elem_of_delete_inv _ _ _ Hin). }
  pose proof (Hle (delete i ls)) as Hsize.
  rewrite length_delete in Hsize by (eexists; exact Hi).
  apply lookup_lt_Some in Hi. lia.
Qed.

Lemma allow_list_size_witness :
  size (valid_tvg_ids Demo.ids_file) < length (TextFile.lines Demo.ids_file).
Proof.
  apply (proj2 (allow_list_size_bound Demo.ids_file) 0 2
           (String.append "ESPN" (String TextFile.LF EmptyString))
           (String.append "ESPN" (String TextFile.LF EmptyString))).
  - discriminate.
  - vm_compute. reflexivity.
  - vm_compute. reflexivity.
  - reflexivity.
Defined.

(** ** The title rewrite *)

Lemma special_title_test (a : option string) :
  py_eq a "NHL Hockey" || py_eq a "Live: NFL Football" = true
  <-> exists t, a = Some t /\ special_title t.
Proof.
  unfold special_title. destruct a as [t|]; simpl.
  - rewrite orb_true_iff, !String.eqb_eq. split.
    + intros H. exists t. split; [reflexivity|exact H].
    + intros (t' & [= <-] & H). exact H.
  - split; [discriminate|]. intros (t & H & _). discriminate.
Qed.

Lemma update_first_split (name : string) (f : Element -> Element)
    (l : list Element) (t : Element) :
  List.find (fun e => String.eqb (tag e) name) l = Some t ->
  exists pre post,
    l = pre ++ t :: post
    /\ Forall (fun e => tag e <> name) pre
    /\ ET.update_first (fun e => String.eqb (tag e) name) f l
       = pre ++ f t :: post.
Proof.
  induction l as [|e l IH]; simpl; [discriminate|].
  destruct (String.eqb (tag e) name) eqn:He.
  - intros [= ->]. exists [], l. repeat split. constructor.
  - intros Hfind. destruct (IH Hfind) as (pre & post & -> & Hpre & ->).
    exists (e :: pre), post. repeat split.
    constructor; [|exact Hpre]. apply String.eqb_neq. exact He.
Qed.

Lemma find_after_prefix (name : string) (pre post : list Element) (t : Element) :
  Forall (fun e => tag e <> name) pre -> tag t = name ->
  List.find (fun e => String.eqb (tag e) name) (pre ++ t :: post) = Some t.
Proof.
  intros Hpre Ht. induction Hpre as [|e pre He _ IH]; simpl.
  - rewrite Ht, String.eqb_refl. reflexivity.
  - apply String.eqb_neq in He. rewrite He. exact IH.
Qed.

Lemma find_some_tag (e : Element) (name : string) (t : Element) :
  ET.find e name = Some t -> tag t = name.
Proof.
  unfold ET.find. intros H. apply find_some in H as [_ H].
  apply String.eqb_eq. exact H.
Qed.

(** Assigning the text of the first child with a given tag changes that
    child's text and nothing else: the element keeps its tag, attributes,
    text and tail, the children before and after stay as they are (later
    children with the same tag too), the child keeps its own attributes and
    children, and it is still the one [find] returns. *)
Theorem set_child_text_changes_one_text
    (elem : Element) (name : string) (t : Element) (x : option string) :
  ET.find elem name = Some t ->
  tag (ET.set_child_text elem name x) = tag elem
  /\ attrib (ET.set_child_text elem name x) = attrib elem
  /\ text (ET.set_child_text elem name x) = text elem
  /\ tail (ET.set_child_text elem name x) = tail elem
  /\ (exists pre post,
        children elem = pre ++ t :: post
        /\ Forall (fun e => tag e <> name) pre
        /\ children (ET.set_child_text elem name x)
           = pre ++ ET.set_text t x :: post)
  /\ ET.find (ET.set_child_text elem name x) name = Some (ET.set_text t x)
  /\ text (ET.set_text t x) = x
  /\ attrib (ET.set_text t x) = attrib t
  /\ children (ET.set_text t x) = children t.
Proof.
  intros Hfind. repeat split.
  - destruct (update_first_split name (fun e => ET.set_text e x)
                (children elem) t Hfind) as (pre & post & Hc & Hpre & Hup).
    exists pre, post. repeat split; assumption.
  - destruct (update_first_split name (fun e => ET.set_text e x)
                (children elem) t Hfind) as (pre & post & Hc & Hpre & Hup).
    unfold ET.find, ET.set_child_text. simpl. rewrite Hup.
    apply find_after_prefix; [exact Hpre|].
    simpl. exact (find_some_tag _ _ _ Hfind).
Qed.

Lemma set_child_text_witness :
  ET.find (ET.set_child_text DemoMore.football_live "title" (Some "Final"))
          "title"
  = Some (ET.set_text (Demo.elem "title" [] (Some "Live: NFL Football") [])
                      (Some "Final"))
  /\ exists pre post,
       children DemoMore.football_live
       = pre ++ Demo.elem "title" [] (Some "Live: NFL Football") [] :: post
       /\ children (ET.set_child_text DemoMore.football_live "title"
                                      (Some "Final"))
          = pre ++ ET.set_text
                     (Demo.elem "title" [] (Some "Live: NFL Football") [])
                     (Some "Final") :: post.
Proof.
  pose proof (set_child_text_changes_one_text DemoMore.football_live "title"
                (Demo.elem "title" [] (Some "Live: NFL Football") [])
                (Some "Final") eq_refl)
    as (_ & _ & _ & _ & (pre & post & Hc & Hpre & Hup) & Hfind & _).
  split; [exact Hfind|].
  exists pre, post. split; [exact Hc|exact Hup].
Defined.

Section TitleFacts.

Variable valid_ids : gset (option string).

(** What the loop does with one programme, told by its result. *)
Lemma process_programme_inv (p root root' : Element) (r : result unit) :
  process_programme valid_ids p root = (root', r) ->
  (keepable valid_ids p = false /\ root' = root /\ r = Ok tt)
  \/ (keepable valid_ids p = true
      /\ ((exists p', root' = extend root [p'] /\ r = Ok tt /\ retitled p p')
          \/ (root' = root /\ exists e, r = Raise e))).
Proof.
  unfold process_programme, keepable, allowed_programme.
  destruct (py_in (ET.get p "channel") valid_ids).
  2:{ unfold mret. intros [= <- <-]. left. auto. }
  destruct (ET.find p "title") as [t|].
  2:{ unfold mret. intros [= <- <-]. left. auto. }
  cbv zeta. intros H. right. split; [reflexivity|].
  destruct (py_eq (text t) "NHL Hockey"
            || py_eq (text t) "Live: NFL Football").
  - unfold mbind at 1 in H. unfold mbind, lift in H.
    match type of H with
    | context [rbind ?a ?k] => destruct (rbind a k) as [nt|e]
    end; simpl in H.
    + injection H as <- <-. left. eexists. split; [reflexivity|].
      split; [reflexivity|]. right. eexists. reflexivity.
    + injection H as <- <-. right. split; [reflexivity|]. eexists. reflexivity.
  - simpl in H. injection H as <- <-. left. exists p. split; [reflexivity|].
    split; [reflexivity|]. left. reflexivity.
Qed.

(** For an allow-listed programme whose first title is one of the two
    special ones, the new title is the old one, a blank, and then: the text
    of the sub-title node when that node has a child element and a text;
    the words "No subtitle" when there is no sub-title node or when the
    node has no child element. *)
Theorem special_title_is_rewritten
    (p title root : Element) (t : string) :
  allowed_programme valid_ids p = true ->
  ET.find p "title" = Some title ->
  text title = Some t ->
  special_title t ->
  (forall st s,
      ET.find p "sub-title" = Some st -> children st <> [] ->
      text st = Some s ->
      process_programme valid_ids p root
      = (extend root
           [ET.set_child_text p "title"
              (Some (String.append (String.append t " ") s))], Ok tt))
  /\ ((ET.find p "sub-title" = None
       \/ exists st, ET.find p "sub-title" = Some st /\ children st = []) ->
      process_programme valid_ids p root
      = (extend root
           [ET.set_child_text p "title"
              (Some (String.append (String.append t " ") "No subtitle"))],
         Ok tt)).
Proof.
  intros Hal Hfind Htext Hsp.
  assert (py_eq (Some t) "NHL Hockey" || py_eq (Some t) "Live: NFL Football"
          = true) as Htest.
  { apply special_title_test. exists t. split; [reflexivity|exact Hsp]. }
  split.
  - intros st s Hsub Hkids Hs. unfold process_programme.
    unfold allowed_programme in Hal. rewrite Hal, Hfind, Hsub. cbv zeta.
    rewrite Htext, Htest. unfold ET.truth.
    destruct (children st) as [|k ks]; [destruct Hkids; reflexivity|].
    rewrite Hs. reflexivity.
  - intros [Hnone|(st & Hsub & Hkids)].
    + unfold process_programme.
      unfold allowed_programme in Hal. rewrite Hal, Hfind, Hnone. cbv zeta.
      rewrite Htext, Htest. reflexivity.
    + exact (childless_subtitle_gets_placeholder valid_ids p title st root t
               Hal Hfind Htext Hsp Hsub Hkids).
Qed.

(** One programme makes the loop raise exactly when it is allow-listed, its
    first title is one of the two special ones and its sub-title node has a
    child element and no text; the exception is then a [TypeError] and the
    root is left as it was. *)
Theorem title_rewrite_raises_iff (p root : Element) :
  ((exists e, (process_programme valid_ids p root).2 = Raise e)
   <-> allowed_programme valid_ids p = true
       /\ exists title t st,
            ET.find p "title" = Some title /\ text title = Some t
            /\ special_title t
            /\ ET.find p "sub-title" = Some st
            /\ children st <> [] /\ text st = None)
  /\ (forall e, (process_programme valid_ids p root).2 = Raise e ->
        exn_cls e = TypeError /\ (process_programme valid_ids p root).1 = root).
Proof.
  unfold process_programme, allowed_programme.
  destruct (py_in (ET.get p "channel") valid_ids);
    [|split; [split; [intros (e & H); discriminate|intros (H & _); discriminate]
             |intros e H; discriminate]].
  destruct (ET.find p "title") as [title|];
    [|split; [split; [intros (e & H); discriminate
                     |intros (_ & ? & ? & ? & H & _); discriminate]
             |intros e H; discriminate]].
  cbv zeta.
  destruct (py_eq (text title) "NHL Hockey"
            || py_eq (text title) "Live: NFL Football") eqn:Htest.
  - apply special_title_test in Htest as (t & Htext & Hsp). rewrite Htext.
    destruct (ET.find p "sub-title") as [st|].
    + unfold ET.truth. destruct (children st) as [|k ks] eqn:Hkids.
      * split; [split; [intros (e & H); discriminate|]|intros e H; discriminate].
        intros (_ & ? & ? & st' & _ & _ & _ & [= <-] & Hne & _).
        destruct Hne. exact Hkids.
      * destruct (text st) as [s|] eqn:Hs.
        -- split; [split; [intros (e & H); discriminate|]
                  |intros e H; discriminate].
           intros (_ & ? & ? & st' & _ & _ & _ & [= <-] & _ & Hnone).
           congruence.
        -- split; [split|].
           ++ intros _. split; [reflexivity|].
              exists title, t, st. rewrite Hkids. repeat split; try assumption.
              discriminate.
           ++ intros _. eexists. reflexivity.
           ++ intros e [= <-]. split; reflexivity.
    + split; [split; [intros (e & H); discriminate|]|intros e H; discriminate].
      intros (_ & ? & ? & ? & _ & _ & _ & H & _). discriminate.
  - split; [split; [intros (e & H); discriminate|]|intros e H; discriminate].
    intros (_ & title' & t & st & [= <-] & Htext & Hsp & _).
    assert (py_eq (text title) "NHL Hockey"
            || py_eq (text title) "Live: NFL Football" = true) as Hyes.
    { apply special_title_test. exists t. split; assumption. }
    congruence.
Qed.

End TitleFacts.

Lemma special_title_witness :
  process_programme (valid_tvg_ids Demo.ids_file) DemoMore.football_live
                    (ET.new "tv")
  = (extend (ET.new "tv")
       [ET.set_child_text DemoMore.football_live "title"
                          (Some "Live: NFL Football Jets at Bills")], Ok tt)
  /\ process_programme (valid_tvg_ids Demo.ids_file) Demo.hockey_alone
                       (ET.new "tv")
     = (extend (ET.new "tv")
          [ET.set_child_text Demo.hockey_alone "title"
                             (Some "NHL Hockey No subtitle")], Ok tt).
Proof.
  split.
  - refine (proj1 (special_title_is_rewritten (valid_tvg_ids Demo.ids_file)
                     DemoMore.football_live
                     (Demo.elem "title" [] (Some "Live: NFL Football") [])
                     (ET.new "tv") "Live: NFL Football" _ _ _ _)
                  (Demo.elem "sub-title" [] (Some "Jets at Bills")
                             [Demo.elem "i" [] (Some "live") []])
                  "Jets at Bills" _ _ _).
    + vm_compute. reflexivity.
    + vm_compute. reflexivity.
    + reflexivity.
    + right. reflexivity.
    + vm_compute. reflexivity.
    + discriminate.
    + reflexivity.
  - refine (proj2 (special_title_is_rewritten (valid_tvg_ids Demo.ids_file)
                     Demo.hockey_alone
                     (Demo.elem "title" [] (Some "NHL Hockey") [])
                     (ET.new "tv") "NHL Hockey" _ _ _ _) _).
    + vm_compute. reflexivity.
    + vm_compute. reflexivity.
    + reflexivity.
    + left. reflexivity.
    + left. vm_compute. reflexivity.
Defined.

Lemma title_rewrite_raises_witness :
  exists e,
    (process_programme (valid_tvg_ids Demo.ids_file) Demo.football
                       (ET.new "tv")).2 = Raise e.
Proof.
  apply (proj1 (title_rewrite_raises_iff (valid_tvg_ids Demo.ids_file)
                  Demo.football (ET.new "tv"))).
  split; [vm_compute; reflexivity|].
  exists (Demo.elem "title" [] (Some "Live: NFL Football") []),
         "Live: NFL Football",
         (Demo.elem "sub-title" [] None
                    [Demo.elem "i" [] (Some "Jets at Bills") []]).
  split; [vm_compute; reflexivity|]. split; [reflexivity|].
  split; [right; reflexivity|]. split; [vm_compute; reflexivity|].
  split; [discriminate|reflexivity].
Defined.

Lemma extend_inj (root : Element) (a b : list Element) :
  extend root a = extend root b -> a = b.
Proof.
  intros H. apply (f_equal children) in H. rewrite !children_extend in H.
  exact (app_inv_head _ _ _ H).
Qed.

Lemma extend_cons_neq (root e : Element) (l : list Element) :
  extend root (e :: l) <> root.
Proof.
  intros H. apply (f_equal (fun r => length (children r))) in H.
  rewrite children_extend, length_app in H. simpl in H. lia.
Qed.

Lemma find_set_child_text (elem : Element) (name : string) (t : Element)
    (x : option string) :
  ET.find elem name = Some t ->
  ET.find (ET.set_child_text elem name x) name = Some (ET.set_text t x).
Proof.
  intros Hfind.
  destruct (update_first_split name (fun e => ET.set_text e x)
              (children elem) t Hfind) as (pre & post & Hc & Hpre & Hup).
  unfold ET.find, ET.set_child_text. simpl. rewrite Hup.
  apply find_after_prefix; [exact Hpre|].
  simpl. exact (find_some_tag _ _ _ Hfind).
Qed.

Lemma get_set_child_text (elem : Element) (name key : string)
    (x : option string) :
  ET.get (ET.set_child_text elem name x) key = ET.get elem key.
Proof. reflexivity. Qed.

Lemma rewritten_title_not_special (t s : string) :
  special_title t ->
  py_eq (Some (String.append (String.append t " ") s)) "NHL Hockey"
  || py_eq (Some (String.append (String.append t " ") s)) "Live: NFL Football"
  = false.
Proof. intros [-> | ->]; reflexivity. Qed.

Ltac same_appended H :=
  first [apply (extend_inj _ [_] [_]) in H | apply app_inv_head in H];
  injection H as <-.

(** What the loop appends for a programme it appends again unchanged: a
    rewritten title is longer than either special title, so it is not
    rewritten a second time. *)
Theorem appended_programme_is_stable
    (valid_ids : gset (option string)) (p p' root root2 : Element) :
  process_programme valid_ids p root = (extend root [p'], Ok tt) ->
  process_programme valid_ids p' root2 = (extend root2 [p'], Ok tt).
Proof.
  unfold process_programme.
  destruct (py_in (ET.get p "channel") valid_ids) eqn:Hin.
  2:{ unfold mret. intros [= H]. symmetry in H.
      destruct (extend_cons_neq _ _ _ H). }
  destruct (ET.find p "title") as [t|] eqn:Hfind.
  2:{ unfold mret. intros [= H]. symmetry in H.
      destruct (extend_cons_neq _ _ _ H). }
  cbv zeta.
  destruct (py_eq (text t) "NHL Hockey"
            || py_eq (text t) "Live: NFL Football") eqn:Htest.
  - apply special_title_test in Htest as (t0 & Htext & Hsp). rewrite Htext.
    intros H.
    assert (exists s, p' = ET.set_child_text p "title"
                             (Some (String.append (String.append t0 " ") s)))
      as (s & ->).
    { destruct (ET.find p "sub-title") as [st|];
        [destruct (ET.truth st); [destruct (text st) as [s|]|]|];
        unfold mbind, lift, mret in H; simpl in H; try discriminate;
        injection H as H; same_appended H; eexists; reflexivity. }
    rewrite get_set_child_text, Hin, (find_set_child_text _ _ _ _ Hfind).
    cbv zeta. change (text (ET.set_text t ?x)) with x.
    rewrite (rewritten_title_not_special t0 s Hsp). reflexivity.
  - unfold mbind, mret. simpl. intros [= H]. same_appended H.
    rewrite Hin, Hfind, Htest. reflexivity.
Qed.

Lemma appended_programme_witness :
  process_programme (valid_tvg_ids Demo.ids_file)
    (ET.set_child_text Demo.hockey "title" (Some "NHL Hockey No subtitle"))
    (ET.new "tv")
  = (extend (ET.new "tv")
       [ET.set_child_text Demo.hockey "title" (Some "NHL Hockey No subtitle")],
     Ok tt).
Proof.
  apply (appended_programme_is_stable (valid_tvg_ids Demo.ids_file)
           Demo.hockey
           (ET.set_child_text Demo.hockey "title"
                              (Some "NHL Hockey No subtitle"))
           (ET.new "tv") (ET.new "tv")).
  vm_compute. reflexivity.
Defined.

(** ** The run as a whole *)

Lemma filter_all {A} (f : A -> bool) (l : list A) :
  Forall (fun x => f x = true) l -> List.filter f l = l.
Proof.
  induction 1 as [|x l Hx _ IH]; simpl; [reflexivity|].
  rewrite Hx, IH. reflexivity.
Qed.

Lemma filter_none {A} (f : A -> bool) (l : list A) :
  Forall (fun x => f x = false) l -> List.filter f l = [].
Proof.
  induction 1 as [|x l Hx _ IH]; simpl; [reflexivity|].
  rewrite Hx, IH. reflexivity.
Qed.

Lemma for_each_app {A} (xs ys : list A) (body : A -> M unit) (root : Element) :
  for_each (xs ++ ys) body root
  = (for_each xs body ;; for_each ys body)%M root.
Proof.
  revert root. induction xs as [|x xs IH]; intros root; simpl.
  - reflexivity.
  - unfold mbind. destruct (body x root) as [root1 [u|e]]; [|reflexivity].
    rewrite IH. reflexivity.
Qed.

Section RunFacts.

Variable requests_get : nat -> string -> result Response.
Variable gzip_decompress : list byte -> result (list byte).
Variable ET_fromstring : list byte -> result Element.
Variable valid_ids : gset (option string).

Abbreviation fetch :=
  (fetch_and_extract_xml requests_get gzip_decompress ET_fromstring).
Abbreviation loop :=
  (for_urls requests_get gzip_decompress ET_fromstring valid_ids).
Abbreviation docs_of := (fetched requests_get gzip_decompress ET_fromstring).

Abbreviation full_contribution := (whole_contribution valid_ids).

Lemma for_each_programmes_ok (ps : list Element) (root root' : Element)
    (u : unit) :
  for_each ps (process_programme valid_ids) root = (root', Ok u) ->
  exists out, root' = extend root out
              /\ Forall2 retitled (List.filter (keepable valid_ids) ps) out.
Proof.
  revert root. induction ps as [|p ps IH]; intros root; simpl.
  - unfold mret. intros [= <-]. exists []. rewrite extend_nil.
    split; [reflexivity|constructor].
  - unfold mbind.
    destruct (process_programme valid_ids p root) as [root1 r1] eqn:H1.
    destruct (process_programme_inv valid_ids _ _ _ _ H1)
      as [(Hk & -> & ->)|(Hk & [(p' & -> & -> & Hre)|(-> & e & ->)])];
      rewrite Hk.
    + apply IH.
    + intros H. destruct (IH _ H) as (out & -> & Hout).
      exists (p' :: out). rewrite extend_extend.
      split; [reflexivity|]. constructor; assumption.
    + discriminate.
Qed.

Lemma process_document_ok (d root root' : Element) (u : unit) :
  process_document valid_ids d root = (root', Ok u) ->
  exists out, root' = extend root out /\ full_contribution d out.
Proof.
  unfold process_document, mbind. rewrite for_each_channels. intros H.
  destruct (for_each_programmes_ok _ _ _ _ H) as (ps & -> & Hps).
  rewrite extend_extend. eexists. split; [reflexivity|].
  exists ps. split; [reflexivity|exact Hps].
Qed.

Lemma for_urls_ok (k : nat) (urls : list string) (root root' : Element)
    (u : unit) :
  loop k urls root = (root', Ok u) ->
  exists outs, Forall2 full_contribution (docs_of k urls) outs
               /\ root' = extend root (concat outs).
Proof.
  revert k root. induction urls as [|url rest IH]; intros k root.
  - simpl. unfold mret. intros [= <-]. exists []. rewrite extend_nil.
    split; [constructor|reflexivity].
  - rewrite for_urls_cons. simpl fetched.
    destruct (fetch k url) as [[d|]|e]; [| |discriminate].
    + destruct (process_document valid_ids d root) as [root1 [u1|e]] eqn:Hd;
        [|discriminate].
      destruct (process_document_ok _ _ _ _ Hd) as (out & -> & Hout).
      intros H. destruct (IH _ _ H) as (outs & Hall & ->).
      exists (out :: outs). rewrite extend_extend.
      split; [constructor; assumption|reflexivity].
    + apply IH.
Qed.

Lemma kept_channels_tags (d : Element) :
  Forall (fun e => is_channel e = true) (kept_channels valid_ids d)
  /\ Forall (fun e => is_programme e = false) (kept_channels valid_ids d).
Proof.
  split; apply Forall_forall; intros c Hc;
    apply list_elem_of_In, filter_In in Hc as [Hc _];
    apply list_elem_of_In, findall_tag in Hc;
    unfold is_channel, is_programme; rewrite Hc; reflexivity.
Qed.

Lemma kept_programmes_images_tags (d : Element) (ps : list Element) :
  Forall2 retitled (kept_programmes valid_ids d) ps ->
  Forall (fun e => is_channel e = false) ps
  /\ Forall (fun e => is_programme e = true) ps.
Proof.
  intros Hre.
  assert (Forall (fun p => tag p = "programme") (kept_programmes valid_ids d))
    as Htag.
  { apply Forall_forall. intros p Hp.
    apply list_elem_of_In, filter_In in Hp as [Hp _].
    apply list_elem_of_In, findall_tag in Hp. exact Hp. }
  induction Hre as [|p p' l ps Hpp' _ IH]; [split; constructor|].
  inversion Htag as [|? ? Hp Htag']; subst.
  destruct (IH Htag') as [IH1 IH2].
  split; constructor; try assumption;
    unfold is_channel, is_programme;
    rewrite (retitled_tag _ _ Hpp'), Hp; reflexivity.
Qed.

Lemma full_contributions_channels (docs : list Element)
    (outs : list (list Element)) :
  Forall2 full_contribution docs outs ->
  List.filter is_channel (concat outs)
  = List.flat_map (kept_channels valid_ids) docs.
Proof.
  induction 1 as [|d out docs outs (ps & -> & Hps) _ IH]; [reflexivity|].
  simpl. rewrite !List.filter_app, IH.
  rewrite (filter_all _ _ (proj1 (kept_channels_tags d))).
  rewrite (filter_none _ _ (proj1 (kept_programmes_images_tags d ps Hps))).
  rewrite app_nil_r. reflexivity.
Qed.

Lemma full_contributions_programmes (docs : list Element)
    (outs : list (list Element)) :
  Forall2 full_contribution docs outs ->
  Forall2 retitled (List.flat_map (kept_programmes valid_ids) docs)
          (List.filter is_programme (concat outs)).
Proof.
  induction 1 as [|d out docs outs (ps & -> & Hps) _ IH]; [constructor|].
  simpl. rewrite !List.filter_app.
  rewrite (filter_none _ _ (proj2 (kept_channels_tags d))).
  rewrite (filter_all _ _ (proj2 (kept_programmes_images_tags d ps Hps))).
  simpl. apply Forall2_app; assumption.
Qed.

Lemma full_contributions_length (docs : list Element)
    (outs : list (list Element)) :
  Forall2 full_contribution docs outs ->
  length (concat outs)
  = length (List.flat_map (kept_channels valid_ids) docs)
    + length (List.flat_map (kept_programmes valid_ids) docs).
Proof.
  induction 1 as [|d out docs outs (ps & -> & Hps) _ IH]; [reflexivity|].
  simpl. rewrite !length_app, IH. apply Forall2_length in Hps. lia.
Qed.

(** The result of one programme does not depend on the root it is appended
    to, and an exception leaves that root as it was. *)
Lemma process_programme_raise_any_root (p root1 root2 : Element) (e : exn) :
  (process_programme valid_ids p root1).2 = Raise e ->
  process_programme valid_ids p root2 = (root2, Raise e).
Proof.
  unfold process_programme.
  destruct (py_in (ET.get p "channel") valid_ids); [|discriminate].
  destruct (ET.find p "title") as [t|]; [|discriminate].
  cbv zeta.
  destruct (py_eq (text t) "NHL Hockey"
            || py_eq (text t) "Live: NFL Football"); [|discriminate].
  unfold mbind at 1 3. unfold mbind, lift.
  match goal with
  | |- context [rbind ?a ?k] => destruct (rbind a k) as [nt|e']
  end; simpl; [discriminate|].
  intros [= ->]. reflexivity.
Qed.

End RunFacts.

(** When the run ends without an exception, the channel elements of the
    output are exactly the allow-listed channels of the fetched documents,
    document after document in the order of the source list and in document
    order within each: every occurrence is kept, none is merged with an
    equal one from the same or another source, none is added. *)
Theorem output_channels_are_all_kept_channels
    (requests_get : nat -> string -> result Response)
    (gzip_decompress : list byte -> result (list byte))
    (ET_fromstring : list byte -> result Element)
    (ids_file : string) (urls : list string) (root : Element) :
  build_root requests_get gzip_decompress ET_fromstring ids_file urls
  = (root, Ok tt) ->
  List.filter is_channel (children root)
  = List.flat_map (kept_channels (valid_tvg_ids ids_file))
      (fetched requests_get gzip_decompress ET_fromstring 0 urls).
Proof.
  unfold build_root. intros Hrun.
  destruct (for_urls_ok _ _ _ _ _ _ _ _ _ Hrun) as (outs & Hall & ->).
  simpl. apply full_contributions_channels. exact Hall.
Qed.

Lemma output_channels_witness :
  List.filter is_channel
    (children (Demo.build [Demo.url_b; Demo.url_a; Demo.url_b]).1)
  = [Demo.cnn; Demo.espn; Demo.cnn].
Proof.
  rewrite (output_channels_are_all_kept_channels Demo.requests_get
             Demo.gzip_decompress Demo.ET_fromstring Demo.ids_file
             [Demo.url_b; Demo.url_a; Demo.url_b]
             (Demo.build [Demo.url_b; Demo.url_a; Demo.url_b]).1).
  - vm_compute. reflexivity.
  - vm_compute. reflexivity.
Defined.

(** When the run ends without an exception, the programme elements of the
    output are, one for one and in order, images of the fetched documents'
    programmes that are allow-listed and have a title child; so the
    output has exactly one element for each kept channel and each such
    programme. *)
Theorem output_programmes_are_all_kept_programmes
    (requests_get : nat -> string -> result Response)
    (gzip_decompress : list byte -> result (list byte))
    (ET_fromstring : list byte -> result Element)
    (ids_file : string) (urls : list string) (root : Element) :
  build_root requests_get gzip_decompress ET_fromstring ids_file urls
  = (root, Ok tt) ->
  Forall2 retitled
    (List.flat_map (kept_programmes (valid_tvg_ids ids_file))
       (fetched requests_get gzip_decompress ET_fromstring 0 urls))
    (List.filter is_programme (children root))
  /\ length (children root)
     = length (List.flat_map (kept_channels (valid_tvg_ids ids_file))
                 (fetched requests_get gzip_decompress ET_fromstring 0 urls))
       + length (List.flat_map (kept_programmes (valid_tvg_ids ids_file))
                   (fetched requests_get gzip_decompress ET_fromstring 0 urls)).
Proof.
  unfold build_root. intros Hrun.
  destruct (for_urls_ok _ _ _ _ _ _ _ _ _ Hrun) as (outs & Hall & ->).
  simpl. split.
  - apply full_contributions_programmes. exact Hall.
  - apply full_contributions_length. exact Hall.
Qed.

Lemma output_programmes_witness :
  length (children (Demo.build [Demo.url_a; Demo.url_b]).1) = 2 + 3.
Proof.
  assert (build_root Demo.requests_get Demo.gzip_decompress Demo.ET_fromstring
                     Demo.ids_file [Demo.url_a; Demo.url_b]
          = ((Demo.build [Demo.url_a; Demo.url_b]).1, Ok tt)) as Hrun
    by (vm_compute; reflexivity).
  rewrite (proj2 (output_programmes_are_all_kept_programmes Demo.requests_get
                    Demo.gzip_decompress Demo.ET_fromstring Demo.ids_file
                    [Demo.url_a; Demo.url_b]
                    (Demo.build [Demo.url_a; Demo.url_b]).1 Hrun)).
  vm_compute. reflexivity.
Defined.

Lemma loop_prefix
    (requests_get : nat -> string -> result Response)
    (gzip_decompress : list byte -> result (list byte))
    (ET_fromstring : list byte -> result Element)
    (valid_ids : gset (option string)) (k : nat) (urls : list string)
    (root : Element) :
  children root
  `prefix_of` children (for_urls requests_get gzip_decompress ET_fromstring
                                 valid_ids k urls root).1.
Proof.
  destruct (for_urls_run requests_get gzip_decompress ET_fromstring valid_ids
              k urls root) as (docs & outs & r & -> & _).
  simpl. apply prefix_app_r. reflexivity.
Qed.

(** The loop only appends: whatever the sources do and however the run
    ends, the root keeps its tag and attributes and the children it had,
    in their places, at the head of its children. *)
Theorem loop_only_appends
    (requests_get : nat -> string -> result Response)
    (gzip_decompress : list byte -> result (list byte))
    (ET_fromstring : list byte -> result Element)
    (valid_ids : gset (option string)) (k : nat) (urls : list string)
    (root : Element) :
  tag (for_urls requests_get gzip_decompress ET_fromstring valid_ids
                k urls root).1 = tag root
  /\ attrib (for_urls requests_get gzip_decompress ET_fromstring valid_ids
                      k urls root).1 = attrib root
  /\ children root
     `prefix_of` children (for_urls requests_get gzip_decompress ET_fromstring
                                    valid_ids k urls root).1.
Proof.
  destruct (for_urls_run requests_get gzip_decompress ET_fromstring valid_ids
              k urls root) as (docs & outs & r & -> & _).
  simpl. repeat split. apply prefix_app_r. reflexivity.
Qed.

(** The loop over a list cut in two is the loop over the first part and
    then, from the root that part left and with the request count it
    reached, the loop over the second; an exception in the first part ends
    the run there. *)
Theorem loop_composes
    (requests_get : nat -> string -> result Response)
    (gzip_decompress : list byte -> result (list byte))
    (ET_fromstring : list byte -> result Element)
    (valid_ids : gset (option string)) (k : nat) (pre rest : list string)
    (root : Element) :
  for_urls requests_get gzip_decompress ET_fromstring valid_ids
           k (pre ++ rest) root
  = match for_urls requests_get gzip_decompress ET_fromstring valid_ids
                   k pre root with
    | (root1, Ok _) =>
        for_urls requests_get gzip_decompress ET_fromstring valid_ids
                 (k + length pre) rest root1
    | (root1, Raise e) => (root1, Raise e)
    end.
Proof. rewrite for_urls_app. reflexivity. Qed.

(** The allow-listed channels of a fetched document are in the output
    whatever happens afterwards: all of them are appended before the first
    programme of the document is looked at, so an exception raised by a
    programme, or by a later source, does not lose them. *)
Theorem kept_channels_survive_exceptions
    (requests_get : nat -> string -> result Response)
    (gzip_decompress : list byte -> result (list byte))
    (ET_fromstring : list byte -> result Element)
    (valid_ids : gset (option string)) (k : nat) (url : string)
    (rest : list string) (d root : Element) :
  fetch_and_extract_xml requests_get gzip_decompress ET_fromstring k url
  = Ok (Some d) ->
  Forall (fun c =>
            c ∈ children (for_urls requests_get gzip_decompress ET_fromstring
                                   valid_ids k (url :: rest) root).1)
         (kept_channels valid_ids d).
Proof.
  intros Hfetch. rewrite for_urls_cons, Hfetch.
  destruct (process_document_run valid_ids d root)
    as (out & r & -> & (kept & ps & -> & _)).
  apply Forall_forall. intros c Hc.
  assert (c ∈ children (extend root
            (List.filter (allowed_channel valid_ids) (ET.findall d "channel")
             ++ ps))) as Hin.
  { rewrite children_extend, !elem_of_app. right. left. exact Hc. }
  destruct r as [u|e]; [|exact Hin].
  match goal with
  | |- c ∈ children (for_urls _ _ _ _ ?k' ?us ?r0).1 =>
      destruct (loop_prefix requests_get gzip_decompress ET_fromstring
                  valid_ids k' us r0) as (more & ->)
  end.
  apply elem_of_app. left. exact Hin.
Qed.

Lemma kept_channels_survive_witness :
  Demo.cnn ∈ children (Demo.build [Demo.url_c; Demo.url_a]).1
  /\ (Demo.build [Demo.url_c; Demo.url_a]).2
     = Raise (mkExn TypeError "can only concatenate str (not NoneType) to str").
Proof.
  split; [|vm_compute; reflexivity].
  pose proof (kept_channels_survive_exceptions Demo.requests_get
                Demo.gzip_decompress Demo.ET_fromstring
                (valid_tvg_ids Demo.ids_file) 0 Demo.url_c [Demo.url_a]
                Demo.doc_c (ET.new "tv") eq_refl) as H.
  assert (kept_channels (valid_tvg_ids Demo.ids_file) Demo.doc_c = [Demo.cnn])
    as Hk by (vm_compute; reflexivity).
  rewrite Hk in H. inversion H as [|? ? Hin _]. exact Hin.
Defined.

(** A programme that raises ends the run: the run ends with an exception,
    and the output root then holds what it held, the allow-listed channels
    of the document and images of programmes that come before the raising
    one in the document; neither the programmes after it nor the sources
    after this one add anything. *)
Theorem raising_programme_ends_the_run
    (requests_get : nat -> string -> result Response)
    (gzip_decompress : list byte -> result (list byte))
    (ET_fromstring : list byte -> result Element)
    (valid_ids : gset (option string)) (k : nat) (url : string)
    (rest : list string) (d root p : Element) (before after : list Element) :
  fetch_and_extract_xml requests_get gzip_decompress ET_fromstring k url
  = Ok (Some d) ->
  ET.findall d "programme" = before ++ p :: after ->
  (exists e, (process_programme valid_ids p root).2 = Raise e) ->
  exists kept out e,
    for_urls requests_get gzip_decompress ET_fromstring valid_ids
             k (url :: rest) root
    = (extend root (kept_channels valid_ids d ++ out), Raise e)
    /\ sublist kept before /\ Forall2 retitled kept out.
Proof.
  intros Hfetch Hsplit (e & He).
  rewrite for_urls_cons, Hfetch.
  unfold process_document, mbind.
  rewrite for_each_channels, Hsplit, for_each_app. unfold mbind.
  destruct (for_each_programmes valid_ids before
              (extend root (List.filter (allowed_channel valid_ids)
                                        (ET.findall d "channel"))))
    as (kept & out & r & -> & Hsub & Hre & _).
  rewrite extend_extend. destruct r as [u|e'].
  - simpl. unfold mbind.
    rewrite (process_programme_raise_any_root valid_ids p root _ e He).
    exists kept, out, e. repeat split; assumption.
  - exists kept, out, e'. repeat split; assumption.
Qed.

Lemma raising_programme_witness :
  exists kept out e,
    for_urls Demo.requests_get Demo.gzip_decompress Demo.ET_fromstring
             (valid_tvg_ids Demo.ids_file) 0 [Demo.url_c; Demo.url_a]
             (ET.new "tv")
    = (extend (ET.new "tv")
         (kept_channels (valid_tvg_ids Demo.ids_file) Demo.doc_c ++ out),
       Raise e)
    /\ sublist kept [] /\ Forall2 retitled kept out.
Proof.
  apply (raising_programme_ends_the_run Demo.requests_get
           Demo.gzip_decompress Demo.ET_fromstring
           (valid_tvg_ids Demo.ids_file) 0 Demo.url_c [Demo.url_a]
           Demo.doc_c (ET.new "tv") Demo.football [] [Demo.regular_show]).
  - reflexivity.
  - vm_compute. reflexivity.
  - eexists. vm_compute. reflexivity.
Defined.

(** ** An empty identifier file *)

Lemma lines_of_nonempty (c : ascii) (s : string) :
  TextFile.lines (String c s) <> [].
Proof.
  unfold TextFile.lines. simpl.
  destruct (Ascii.eqb c TextFile.CR).
  - simpl. discriminate.
  - destruct (Ascii.eqb c TextFile.LF) eqn:Hlf.
    + simpl. discriminate.
    + simpl. rewrite Hlf.
      destruct (TextFile.split_lines (TextFile.universal_newlines false s));
        discriminate.
Qed.

Lemma for_each_skip {A} (body : A -> M unit) (xs : list A) (root : Element) :
  (forall x root, body x root = (root, Ok tt)) ->
  for_each xs body root = (root, Ok tt).
Proof.
  intros Hskip. induction xs as [|x xs IH]; [reflexivity|].
  simpl. unfold mbind. rewrite Hskip. exact IH.
Qed.

Lemma process_document_empty (d root : Element) :
  process_document ∅ d root = (root, Ok tt).
Proof.
  unfold process_document, mbind.
  rewrite for_each_skip.
  - apply for_each_skip. intros p r. unfold process_programme.
    rewrite py_in_false; [reflexivity|]. apply not_elem_of_empty.
  - intros c r. unfold process_channel.
    rewrite py_in_false; [reflexivity|]. apply not_elem_of_empty.
Qed.

(** Only the empty identifier file gives an empty allow-list.  With it the
    run appends nothing and rewrites no title: the root stays the empty
    [tv] element, and the run can end with an exception only when the fetch
    of one of the sources raises one. *)
Theorem empty_identifier_file_keeps_nothing
    (requests_get : nat -> string -> result Response)
    (gzip_decompress : list byte -> result (list byte))
    (ET_fromstring : list byte -> result Element)
    (urls : list string) :
  (forall ids_file, valid_tvg_ids ids_file = ∅ <-> ids_file = EmptyString)
  /\ exists r,
       build_root requests_get gzip_decompress ET_fromstring EmptyString urls
       = (ET.new "tv", r)
       /\ (r = Ok tt
           \/ exists k url e,
                r = Raise e /\ url ∈ urls
                /\ fetch_and_extract_xml requests_get gzip_decompress
                                         ET_fromstring k url = Raise e).
Proof.
  split.
  - intros ids_file. split; [|intros ->; reflexivity].
    destruct ids_file as [|c s]; [reflexivity|]. intros Hempty. exfalso.
    pose proof (lines_of_nonempty c s) as Hlines.
    destruct (TextFile.lines (String c s)) as [|line ls] eqn:Heq;
      [destruct Hlines; reflexivity|].
    assert (Some (PyStr.strip line) ∈ valid_tvg_ids (String c s)) as Hin.
    { apply elem_of_valid_tvg_ids. exists line. rewrite Heq.
      split; [left|reflexivity]. }
    rewrite Hempty in Hin. exact (not_elem_of_empty _ Hin).
  - unfold build_root.
    change (valid_tvg_ids EmptyString) with (∅ : gset (option string)).
    generalize 0 (ET.new "tv").
    induction urls as [|url rest IH]; intros k root.
    + exists (Ok tt). split; [reflexivity|left; reflexivity].
    + rewrite for_urls_cons.
      destruct (fetch_and_extract_xml requests_get gzip_decompress
                  ET_fromstring k url) as [[d|]|e] eqn:Hfetch.
      * rewrite process_document_empty.
        destruct (IH (S k) root) as (r & -> & Hr). exists r.
        split; [reflexivity|].
        destruct Hr as [->|(k' & url' & e & -> & Hin & Hf)];
          [left; reflexivity|right].
        exists k', url', e. split; [reflexivity|]. split; [right; exact Hin|].
        exact Hf.
      * destruct (IH (S k) root) as (r & -> & Hr). exists r.
        split; [reflexivity|].
        destruct Hr as [->|(k' & url' & e & -> & Hin & Hf)];
          [left; reflexivity|right].
        exists k', url', e. split; [reflexivity|]. split; [right; exact Hin|].
        exact Hf.
      * exists (Raise e). split; [reflexivity|]. right.
        exists k, url, e. split; [reflexivity|]. split; [left|exact Hfetch].
Qed.

Lemma empty_identifier_file_witness :
  valid_tvg_ids EmptyString = ∅
  /\ valid_tvg_ids (String TextFile.LF EmptyString) <> ∅.
Proof.
  pose proof (empty_identifier_file_keeps_nothing Demo.requests_get
                Demo.gzip_decompress Demo.ET_fromstring [Demo.url_a])
    as (Hiff & _).
  split.
  - apply Hiff. reflexivity.
  - intros Heq. apply Hiff in Heq. discriminate.
Defined.

(** ** Failures the fetch catches *)

Lemma channels_after_fetch
    (requests_get : nat -> string -> result Response)
    (gzip_decompress : list byte -> result (list byte))
    (ET_fromstring : list byte -> result Element)
    (valid_ids : gset (option string)) (k : nat) (url : string)
    (rest : list string) (d root : Element) :
  fetch_and_extract_xml requests_get gzip_decompress ET_fromstring k url
  = Ok (Some d) ->
  Forall (fun c =>
            c ∈ children (for_urls requests_get gzip_decompress ET_fromstring
                                   valid_ids k (url :: rest) root).1)
         (kept_channels valid_ids d).
Proof.
  intros Hfetch. rewrite for_urls_cons, Hfetch.
  destruct (process_document_run valid_ids d root)
    as (out & r & -> & (kept & ps & -> & _)).
  apply Forall_forall. intros c Hc.
  assert (c ∈ children (extend root
            (List.filter (allowed_channel valid_ids) (ET.findall d "channel")
             ++ ps))) as Hin.
  { rewrite children_extend, !elem_of_app. right. left. exact Hc. }
  destruct r as [u|e]; [|exact Hin].
  match goal with
  | |- c ∈ children (for_urls _ _ _ _ ?k' ?us ?r0).1 =>
      destruct (loop_prefix requests_get gzip_decompress ET_fromstring
                  valid_ids k' us r0) as (more & ->)
  end.
  apply elem_of_app. left. exact Hin.
Qed.

(** When a source fails in one of the ways the fetch catches (the transport
    raises a [RequestException], the status is 4xx or 5xx, the body of a
    [.gz] source does not decompress, the XML does not parse), the fetch
    returns [None] and raises nothing, the source adds no element, and the
    loop goes on with the sources after it from the root the sources before
    it left: when the next source is fetched and parsed, its allow-listed
    channels are in the output. *)
Theorem caught_failure_is_skipped
    (requests_get : nat -> string -> result Response)
    (gzip_decompress : list byte -> result (list byte))
    (ET_fromstring : list byte -> result Element)
    (k : nat) (url : string) :
  caught_failure requests_get gzip_decompress ET_fromstring k url ->
  fetch_and_extract_xml requests_get gzip_decompress ET_fromstring k url
  = Ok None
  /\ (forall valid_ids rest root,
        for_urls requests_get gzip_decompress ET_fromstring valid_ids
                 k (url :: rest) root
        = for_urls requests_get gzip_decompress ET_fromstring valid_ids
                   (S k) rest root)
  /\ (forall valid_ids k0 pre rest root,
        k = k0 + length pre ->
        for_urls requests_get gzip_decompress ET_fromstring valid_ids
                 k0 (pre ++ url :: rest) root
        = (for_urls requests_get gzip_decompress ET_fromstring valid_ids
                    k0 pre ;;
           for_urls requests_get gzip_decompress ET_fromstring valid_ids
                    (S k) rest)%M root)
  /\ (forall valid_ids next rest d root,
        fetch_and_extract_xml requests_get gzip_decompress ET_fromstring
                              (S k) next = Ok (Some d) ->
        Forall (fun c =>
                  c ∈ children (for_urls requests_get gzip_decompress
                                         ET_fromstring valid_ids
                                         k (url :: next :: rest) root).1)
               (kept_channels valid_ids d)).
Proof.
  intros Hfail.
  assert (fetch_and_extract_xml requests_get gzip_decompress ET_fromstring
            k url = Ok None) as Hnone.
  { unfold fetch_and_extract_xml.
    destruct Hfail as [(e & -> & He)|(response & -> & Hwhy)].
    - simpl. rewrite He. reflexivity.
    - simpl. unfold raise_for_status.
      destruct ((400 <=? status_code response)%Z
                && (status_code response <? 600)%Z) eqn:Hstatus;
        [reflexivity|].
      simpl.
      destruct Hwhy as [Hbad|[(Hgz & e & He)|[(Hgz & data & e & Hd & He)
                                            |(Hgz & e & He)]]].
      + apply andb_false_iff in Hstatus as [H|H]; lia.
      + rewrite Hgz, He. simpl.
        rewrite isinstance_Exception_true. reflexivity.
      + rewrite Hgz, Hd. simpl. rewrite He. simpl.
        rewrite isinstance_Exception_true. reflexivity.
      + rewrite Hgz, He. simpl.
        rewrite isinstance_Exception_true. reflexivity. }
  assert (forall valid_ids rest root,
             for_urls requests_get gzip_decompress ET_fromstring valid_ids
                      k (url :: rest) root
             = for_urls requests_get gzip_decompress ET_fromstring valid_ids
                        (S k) rest root) as Hskip.
  { intros valid_ids rest root. rewrite for_urls_cons, Hnone. reflexivity. }
  split; [exact Hnone|]. split; [exact Hskip|]. split.
  - intros valid_ids k0 pre rest root ->.
    rewrite for_urls_app. unfold mbind.
    destruct (for_urls _ _ _ valid_ids k0 pre root) as [root' [u|e]];
      [apply Hskip|reflexivity].
  - intros valid_ids next rest d root Hnext. rewrite Hskip.
    apply channels_after_fetch. exact Hnext.
Qed.

(** The four failing sources of the demo network are skipped, and the good
    source after a dead one still gives its channel. *)
Lemma caught_failure_witness :
  fetch_and_extract_xml Demo.requests_get Demo.gzip_decompress
                        Demo.ET_fromstring 0 Demo.url_down = Ok None
  /\ fetch_and_extract_xml Demo.requests_get Demo.gzip_decompress
                           Demo.ET_fromstring 1 Demo.url_missing = Ok None
  /\ fetch_and_extract_xml Demo.requests_get Demo.gzip_decompress
                           Demo.ET_fromstring 2 Demo.url_not_gzip = Ok None
  /\ fetch_and_extract_xml Demo.requests_get Demo.gzip_decompress
                           Demo.ET_fromstring 3 Demo.url_garbage = Ok None
  /\ Forall (fun c =>
               c ∈ children
                     (for_urls Demo.requests_get Demo.gzip_decompress
                               Demo.ET_fromstring (valid_tvg_ids Demo.ids_file)
                               0 [Demo.url_down; Demo.url_b] (ET.new "tv")).1)
            [Demo.cnn].
Proof.
  assert (caught_failure Demo.requests_get Demo.gzip_decompress
                         Demo.ET_fromstring 0 Demo.url_down) as Hdown
    by (left; eexists; split; reflexivity).
  split; [|split; [|split; [|split]]].
  - exact (proj1 (caught_failure_is_skipped Demo.requests_get
                    Demo.gzip_decompress Demo.ET_fromstring 0 Demo.url_down
                    Hdown)).
  - refine (proj1 (caught_failure_is_skipped Demo.requests_get
                     Demo.gzip_decompress Demo.ET_fromstring 1
                     Demo.url_missing _)).
    right. eexists. split; [reflexivity|]. left. simpl. lia.
  - refine (proj1 (caught_failure_is_skipped Demo.requests_get
                     Demo.gzip_decompress Demo.ET_fromstring 2
                     Demo.url_not_gzip _)).
    right. eexists. split; [reflexivity|]. right. left.
    split; [reflexivity|]. eexists. reflexivity.
  - refine (proj1 (caught_failure_is_skipped Demo.requests_get
                     Demo.gzip_decompress Demo.ET_fromstring 3
                     Demo.url_garbage _)).
    right. eexists. split; [reflexivity|]. right. right. right.
    split; [reflexivity|]. eexists. reflexivity.
  - exact (proj2 (proj2 (proj2 (caught_failure_is_skipped Demo.requests_get
                    Demo.gzip_decompress Demo.ET_fromstring 0 Demo.url_down
                    Hdown)))
             (valid_tvg_ids Demo.ids_file) Demo.url_b [] Demo.doc_b
             (ET.new "tv") eq_refl).
Defined.
